(** * SMQTK indexers: the [Indexer] base class and plugin discovery

    A shallow embedding of [lib/SMQTK/Indexers/__init__.py] (Python 2):

    - the shared precondition checks of the abstract base class [Indexer]
      ([data_dir], [work_dir], [generate_model], [extend_model],
      [rank_model], [reset]), as computations over a file-system state
      that may raise a Python exception;
    - the plugin discovery function [get_indexers], as a fold over the
      directory listing in an error monad.

    Calls to [log.debug] have no influence on results and are left out. *)

From Stdlib Require Import Ascii String ZArith.
From stdpp Require Import gmap strings list fin_maps.

Local Open Scope string_scope.
Set Warnings "-register-all".

(** ** Python exceptions and results *)

Inductive errno := EEXIST | ENOENT | ENOTDIR.

(** The exceptions that the embedded code can raise.  [RuntimeError] and
    [ValueError] carry the argument tuple given to the constructor;
    [OSError] is what [os.makedirs] raises; [TypeError] is raised by
    [issubclass] when its first argument is not a class; [AttributeError]
    by the attribute access [cls.__name__]. *)
Inductive PyExc :=
| RuntimeError (args : list string)
| ValueError (args : list string)
| OSError (code : errno) (filename : string)
| TypeError
| AttributeError (attr : string)
| ImportError (name : string).

Inductive result (A : Type) :=
| Ok (a : A)
| Raise (e : PyExc).
Arguments Ok {A} a.
Arguments Raise {A} e.

(** Sequencing: an exception raised by the first computation ends the
    whole one. *)
Global Instance result_bind : MBind result := λ A B k r,
  match r with
  | Ok a => k a
  | Raise e => Raise e
  end.

Definition is_Ok {A} (r : result A) : Prop := ∃ a, r = Ok a.
Definition is_Raise {A} (r : result A) : Prop := ∃ e, r = Raise e.

(** ** Regular expressions (the fragment used by [file_re]) *)

Definition newline : ascii := "010"%char.

Inductive regex :=
| Void
| Eps
| Lit (c : ascii)
| Class (p : ascii → bool)
| Dot
| Cat (r1 r2 : regex)
| Alt (r1 r2 : regex)
| Star (r : regex)
| Opt (r : regex).

Fixpoint nullable (r : regex) : bool :=
  match r with
  | Void | Lit _ | Class _ | Dot => false
  | Eps | Star _ | Opt _ => true
  | Cat r1 r2 => nullable r1 && nullable r2
  | Alt r1 r2 => nullable r1 || nullable r2
  end.

(** Brzozowski derivative.  [Dot] is Python's [.] without [re.DOTALL]:
    any character except a newline. *)
Fixpoint deriv (a : ascii) (r : regex) : regex :=
  match r with
  | Void | Eps => Void
  | Lit c => if Ascii.eqb a c then Eps else Void
  | Class p => if p a then Eps else Void
  | Dot => if Ascii.eqb a newline then Void else Eps
  | Cat r1 r2 =>
      if nullable r1 then Alt (Cat (deriv a r1) r2) (deriv a r2)
      else Cat (deriv a r1) r2
  | Alt r1 r2 => Alt (deriv a r1) (deriv a r2)
  | Star r1 => Cat (deriv a r1) (Star r1)
  | Opt r1 => deriv a r1
  end.

Fixpoint full_match (r : regex) (s : string) : bool :=
  match s with
  | EmptyString => nullable r
  | String a s' => full_match (deriv a r) s'
  end.

(** The strings a regular expression denotes. *)
Inductive matches : regex → string → Prop :=
| matches_Eps : matches Eps ""
| matches_Lit c : matches (Lit c) (String c "")
| matches_Class (p : ascii → bool) c :
    p c = true → matches (Class p) (String c "")
| matches_Dot c : c ≠ newline → matches Dot (String c "")
| matches_Cat r1 r2 s1 s2 :
    matches r1 s1 → matches r2 s2 → matches (Cat r1 r2) (s1 +:+ s2)
| matches_Alt_l r1 r2 s : matches r1 s → matches (Alt r1 r2) s
| matches_Alt_r r1 r2 s : matches r2 s → matches (Alt r1 r2) s
| matches_Star_nil r : matches (Star r) ""
| matches_Star_cons r s1 s2 :
    matches r s1 → matches (Star r) s2 → matches (Star r) (s1 +:+ s2)
| matches_Opt_none r : matches (Opt r) ""
| matches_Opt_some r s : matches r s → matches (Opt r) s.

(** A [$] that ends the pattern (no [re.MULTILINE]) succeeds at the end of
    the subject and just before a newline that is its last character; since
    [re.match] accepts any matching prefix, a pattern [body$] matches
    exactly the subjects that [body(\n)?] matches in full. *)
Definition end_anchor : regex := Opt (Lit newline).

Definition is_ascii_letter (c : ascii) : bool :=
  let n := nat_of_ascii c in
  (Nat.leb 97 n && Nat.leb n 122) || (Nat.leb 65 n && Nat.leb n 90).

(** [file_re = re.compile("^[a-zA-Z].*(?:\.py)?$")]; the leading [^] is
    implied by [re.match]. *)
Definition file_re : regex :=
  Cat (Class is_ascii_letter)
      (Cat (Star Dot)
           (Cat (Opt (Cat (Lit ".") (Cat (Lit "p") (Lit "y"))))
                end_anchor)).

(** [file_re.match(module_file)], as a truth value. *)
Definition file_re_match (module_file : string) : bool :=
  full_match file_re module_file.

Fixpoint string_existsb (p : ascii → bool) (s : string) : bool :=
  match s with
  | EmptyString => false
  | String a s' => p a || string_existsb p s'
  end.

(** No newline, except possibly as the very last character. *)
Fixpoint single_line (s : string) : bool :=
  match s with
  | EmptyString => true
  | String a s' =>
      if Ascii.eqb a newline then bool_decide (s' = "") else single_line s'
  end.

(** No newline at all. *)
Definition newline_free (s : string) : bool :=
  negb (string_existsb (λ a, Ascii.eqb a newline) s).

(** ** [os.path.splitext] *)

(** [s.rfind(c)]: index of the last occurrence, [-1] when there is none. *)
Fixpoint rfind_from (c : ascii) (s : string) (i : Z) : Z :=
  match s with
  | EmptyString => (-1)%Z
  | String a s' =>
      let r := rfind_from c s' (i + 1)%Z in
      if (0 <=? r)%Z then r else if Ascii.eqb a c then i else (-1)%Z
  end.

Definition rfind (c : ascii) (s : string) : Z := rfind_from c s 0%Z.

(** [genericpath._splitext(p, '/', None, '.')]: split at the last dot of
    the last path component, unless that component consists of leading
    dots only up to there. *)
Definition splitext (p : string) : string * string :=
  let sepIndex := rfind "/" p in
  let dotIndex := rfind "." p in
  if (sepIndex <? dotIndex)%Z
     && string_existsb (fun a => negb (Ascii.eqb a "."))
          (substring (Z.to_nat (sepIndex + 1))
                     (Z.to_nat (dotIndex - (sepIndex + 1))) p)
  then (substring 0 (Z.to_nat dotIndex) p,
        substring (Z.to_nat dotIndex)
                  (String.length p - Z.to_nat dotIndex) p)
  else (p, "").

(** ** Python values seen by discovery *)

(** A class object: its identity (defining module and name), and the
    identities of the other classes on its [__mro__]. [cls_name] is
    [cls.__name__]. *)
Record PyClass := {
  cls_module : string;
  cls_name : string;
  cls_ancestors : list (string * string)
}.

Definition cls_id (c : PyClass) : string * string :=
  (cls_module c, cls_name c).

(** The values a module attribute may hold here: [None], integers,
    strings, class objects, and lists and tuples of values.  Other
    objects that carry a [__name__] (functions, modules) are not among
    them. *)
Inductive PyVal :=
| VNone
| VInt (z : Z)
| VStr (s : string)
| VClass (c : PyClass)
| VList (items : list PyVal)
| VTuple (items : list PyVal).

(** An imported module: [mod_name] is [module.__name__], which the import
    system sets to the dotted path the module was imported under;
    [mod_globals] are the names bound at its top level. *)
Record PyModule := {
  mod_name : string;
  mod_globals : gmap string PyVal
}.

(** The abstract base class itself. *)
Definition Indexer_class : PyClass :=
  {| cls_module := "SMQTK.Indexers";
     cls_name := "Indexer";
     cls_ancestors := [("__builtin__", "object")] |}.

(** [issubclass(v, base)]: a class is a subclass of itself and of every
    class on its [__mro__]; a first argument that is not a class raises
    [TypeError]. *)
Definition issubclass (v : PyVal) (base : PyClass) : result bool :=
  match v with
  | VClass c =>
      Ok (bool_decide (cls_id c = cls_id base)
          || bool_decide (cls_id base ∈ cls_ancestors c))
  | _ => Raise TypeError
  end.

(** [isinstance(v, (tuple, list))], returning the items when it holds. *)
Definition as_tuple_or_list (v : PyVal) : option (list PyVal) :=
  match v with
  | VList items | VTuple items => Some items
  | _ => None
  end.

(** [v.__name__]. *)
Definition getattr_name (v : PyVal) : result string :=
  match v with
  | VClass c => Ok (cls_name c)
  | _ => Raise (AttributeError "__name__")
  end.

(** ** Plugin discovery: [get_indexers] *)

(** What the function reads from its surroundings: the package's
    [__name__], the result of [os.listdir(this_dir)], and the import
    system ([__import__(module_path, fromlist=__name__)]), which returns
    the module or raises. *)
Record DiscoveryEnv := {
  pkg_name : string;
  listdir : list string;
  import_module : string → result PyModule
}.

Definition standard_var : string := "INDEXER_CLASS".

(** ['.'.join([a, b])] *)
Definition dot_join (a b : string) : string := a +:+ "." +:+ b.

(** The [if]/[elif] cascade that computes [cl_classes] for one imported
    module: first [hasattr(module, standard_var)], then
    [hasattr(module, module.__name__)].  When neither holds [cl_classes]
    keeps its initial value, the empty list.  [module_name] only appears
    in the arguments of the errors. *)
Definition cl_classes_of (module_name : string) (module : PyModule)
  : result (list PyVal) :=
  match mod_globals module !! standard_var with
  | Some cl_classes =>
      match as_tuple_or_list cl_classes with
      | Some items => Ok items
      | None =>
          b ← issubclass cl_classes Indexer_class;
          if (b : bool) then Ok [cl_classes]
          else Raise (RuntimeError
                 ["[%s] %s variable not set to a valid value.";
                  module_name])
      end
  | None =>
      match mod_globals module !! mod_name module with
      | Some cl_classes =>
          b ← issubclass cl_classes Indexer_class;
          if (b : bool) then Ok [cl_classes]
          else Raise (RuntimeError
                 ["[%s] Failed to find valid class by module name";
                  module_name])
      | None => Ok []
      end
  end.

(** [for cls in cl_classes: class_map[cls.__name__] = cls] *)
Fixpoint register_classes (cl_classes : list PyVal)
    (class_map : gmap string PyVal) : result (gmap string PyVal) :=
  match cl_classes with
  | [] => Ok class_map
  | cls :: rest =>
      name ← getattr_name cls;
      register_classes rest (<[name := cls]> class_map)
  end.

(** The classes one directory entry exports: none when its name does not
    match [file_re], otherwise those of the module imported for it. *)
Definition entry_classes (env : DiscoveryEnv) (module_file : string)
  : result (list PyVal) :=
  if file_re_match module_file then
    let module_name := fst (splitext module_file) in
    let module_path := dot_join (pkg_name env) module_name in
    module ← import_module env module_path;
    cl_classes_of module_name module
  else Ok [].

(** The [for module_file in os.listdir(this_dir)] loop. *)
Fixpoint get_indexers_loop (env : DiscoveryEnv) (files : list string)
    (class_map : gmap string PyVal) : result (gmap string PyVal) :=
  match files with
  | [] => Ok class_map
  | module_file :: rest =>
      cl_classes ← entry_classes env module_file;
      class_map' ← register_classes cl_classes class_map;
      get_indexers_loop env rest class_map'
  end.

Definition get_indexers (env : DiscoveryEnv) : result (gmap string PyVal) :=
  get_indexers_loop env (listdir env) ∅.

(** ** The file system seen by [os.path.isdir] and [os.makedirs] *)

Inductive node := Dir | File.

Global Instance node_eq_dec : EqDecision node.
Proof. solve_decision. Defined.

(** A file-system state maps the component list of a path (from the root,
    against which relative paths are resolved as well) to what is there.
    Symbolic links, permissions and the components [.] and [..] are not
    interpreted. *)
Abbreviation FS := (gmap (list string) node).

Fixpoint components_from (cur : string) (p : string) : list string :=
  match p with
  | EmptyString => if bool_decide (cur = "") then [] else [cur]
  | String a p' =>
      if Ascii.eqb a "/" then
        if bool_decide (cur = "") then components_from "" p'
        else cur :: components_from "" p'
      else components_from (cur +:+ String a "") p'
  end.

(** The non-empty components of a path; [[]] is the root directory. *)
Definition path_components (p : string) : list string :=
  components_from "" p.

(** [os.path.isdir(p)] *)
Definition os_path_isdir (fs : FS) (p : string) : bool :=
  if bool_decide (p = "") then false
  else match path_components p with
       | [] => true
       | cs => bool_decide (fs !! cs = Some Dir)
       end.

(** The proper, non-root ancestors of a location, outermost first. *)
Definition ancestors (cs : list string) : list (list string) :=
  (λ k, take k cs) <$> seq 1 (length cs - 1).

Definition mkdir_all (locs : list (list string)) (fs : FS) : FS :=
  foldr (λ loc acc, <[loc := Dir]> acc) fs locs.

(** [os.makedirs(p)]: creates the leaf directory and every missing
    ancestor; raises [OSError] when the leaf already exists (as a
    directory or as anything else), when the path is empty, or when an
    ancestor is not a directory.  The exception carries the path given,
    where the library names the component it could not create; and on
    paths and systems outside the limits above the library can fail for
    other reasons, also after it has created some ancestors. *)
Definition os_makedirs (fs : FS) (p : string) : result FS :=
  if bool_decide (p = "") then Raise (OSError ENOENT p)
  else
    let cs := path_components p in
    if bool_decide (cs = []) then Raise (OSError EEXIST p)
    else if bool_decide (is_Some (fs !! cs)) then Raise (OSError EEXIST p)
    else if existsb (λ loc, bool_decide (fs !! loc = Some File)) (ancestors cs)
    then Raise (OSError ENOTDIR p)
    else Ok (mkdir_all (ancestors cs ++ [cs])%list fs).

(** ** Computations of the [Indexer] methods

    A method runs against the file system, which it may change, and either
    returns a value or raises. *)

Definition M (A : Type) : Type := FS → result A * FS.

Global Instance M_ret : MRet M := λ A a fs, (Ok a, fs).

Global Instance M_bind : MBind M := λ A B k m fs,
  match m fs with
  | (Ok a, fs') => k a fs'
  | (Raise e, fs') => (Raise e, fs')
  end.

Definition raise {A} (e : PyExc) : M A := λ fs, (Raise e, fs).

Definition isdir (p : string) : M bool := λ fs, (Ok (os_path_isdir fs p), fs).

Definition makedirs (p : string) : M unit := λ fs,
  match os_makedirs fs p with
  | Ok fs' => (Ok tt, fs')
  | Raise e => (Raise e, fs)
  end.

(** ** The [Indexer] base class *)

(** An instance: the two attributes set by [__init__], and whatever state
    the concrete subclass keeps. *)
Record Indexer (State : Type) := {
  _data_dir : string;
  _work_dir : string;
  impl_state : State
}.
Arguments _data_dir {State} _.
Arguments _work_dir {State} _.
Arguments impl_state {State} _.

(** The abstract method [has_model], supplied by the concrete subclass: a
    query on the instance and on what is on disk. *)
Class IndexerImpl (State : Type) :=
  has_model : Indexer State → FS → bool.

(** The texts of the exceptions raised by the base class. *)
Definition nl : string := String newline "".

Definition model_exists_message (location : string) : string :=
  nl +:+ "!!! Warning !!! Warning !!! Warning !!!" +:+ nl
  +:+ "A model already exists for this indexer! "
  +:+ "Make sure that you really want to do this by moving / "
  +:+ "deleting the existing model (file(s)). Model location: "
  +:+ location +:+ nl
  +:+ "!!! Warning !!! Warning !!! Warning !!!".

Definition empty_feature_map_message : string :=
  "The given feature_map has no content.".

Definition no_model_message : string :=
  "No model available for this indexer.".

Definition no_model_reset_message : string :=
  "No model available for this indexer to reset " +:+ "to.".

Section IndexerBase.
Context {State : Type} `{!IndexerImpl State}.
Context {Feature : Type}.

(** [has_model()] as a step of a computation. *)
Definition has_model_call (self : Indexer State) : M bool :=
  λ fs, (Ok (has_model self fs), fs).

(** The [data_dir] property. *)
Definition data_dir (self : Indexer State) : M string :=
  present ← isdir (_data_dir self);
  (if negb present then makedirs (_data_dir self) else mret tt);;
  mret (_data_dir self).

(** The [work_dir] property. *)
Definition work_dir (self : Indexer State) : M string :=
  present ← isdir (_work_dir self);
  (if negb present then makedirs (_work_dir self) else mret tt);;
  mret (_work_dir self).

(** [Indexer.generate_model]: the checks shared by all subclasses.  The
    text of the first error is built from the [data_dir] property.
    [not feature_map] holds of a mapping exactly when it has no entry. *)
Definition generate_model (self : Indexer State)
    (feature_map : gmap Z Feature) (parallel : option Z) : M unit :=
  exists_already ← has_model_call self;
  if (exists_already : bool) then
    location ← data_dir self;
    raise (RuntimeError [model_exists_message location])
  else if bool_decide (size feature_map = 0) then
    raise (ValueError [empty_feature_map_message])
  else mret tt.

(** [Indexer.extend_model] *)
Definition extend_model (self : Indexer State)
    (id_feature_map : gmap Z Feature) (parallel : option Z) : M unit :=
  present ← has_model_call self;
  if negb present then raise (RuntimeError [no_model_message])
  else mret tt.

(** [Indexer.rank_model] *)
Definition rank_model (self : Indexer State)
    (pos_ids neg_ids : list Z) : M unit :=
  present ← has_model_call self;
  if negb present then raise (RuntimeError [no_model_message])
  else mret tt.

(** [Indexer.reset] *)
Definition reset (self : Indexer State) : M unit :=
  present ← has_model_call self;
  if negb present then raise (RuntimeError [no_model_reset_message])
  else mret tt.

End IndexerBase.

(** ** The error classes of the specification *)

(** [ModelAlreadyExistsError]: the [RuntimeError] of [generate_model]. *)
Definition ModelAlreadyExistsError (e : PyExc) : Prop :=
  ∃ location, e = RuntimeError [model_exists_message location].

(** [EmptyInputError]: the [ValueError] of [generate_model]. *)
Definition EmptyInputError (e : PyExc) : Prop :=
  e = ValueError [empty_feature_map_message].

(** [NoModelError]: the [RuntimeError] of [extend_model], [rank_model] and
    [reset]. *)
Definition NoModelError (e : PyExc) : Prop :=
  e = RuntimeError [no_model_message]
  ∨ e = RuntimeError [no_model_reset_message].

(** [PluginExportError]: a [RuntimeError] of [get_indexers]; its second
    argument names the candidate. *)
Definition PluginExportError (module_name : string) (e : PyExc) : Prop :=
  ∃ text, e = RuntimeError [text; module_name].

(** ** Ensuring a directory *)

(** What it means for a handle [access] on the path [p] to ensure the
    directory: a present directory is returned untouched; an absent one is
    created by [os.makedirs] and then present, so that the next access
    changes nothing; when [os.makedirs] raises, the access raises the
    same exception in place of returning the path. *)
Definition ensures_directory (access : M string) (p : string) : Prop :=
  ∀ fs : FS,
    (os_path_isdir fs p = true → access fs = (Ok p, fs))
    ∧ (os_path_isdir fs p = false → ∀ fs', os_makedirs fs p = Ok fs' →
         access fs = (Ok p, fs') ∧ os_path_isdir fs' p = true
         ∧ access fs' = (Ok p, fs'))
    ∧ (os_path_isdir fs p = false → ∀ e, os_makedirs fs p = Raise e →
         fst (access fs) = Raise e).

(** ** Concrete indexers and file systems *)

(** An indexer whose model is the file [model] in its data directory. *)
Inductive ModelFile := model_file_state.

Global Instance model_file_impl : IndexerImpl ModelFile :=
  λ self fs,
    bool_decide (fs !! (path_components (_data_dir self) ++ ["model"])%list
                 = Some File).

(** An indexer that needs no model: its [has_model] is constantly true. *)
Inductive ModelFree := model_free_state.

Global Instance model_free_impl : IndexerImpl ModelFree :=
  λ _ _, true.

Definition file_indexer : Indexer ModelFile :=
  {| _data_dir := "/srv/data"; _work_dir := "/srv/work";
     impl_state := model_file_state |}.

Definition free_indexer : Indexer ModelFree :=
  {| _data_dir := "/srv/data"; _work_dir := "/srv/work";
     impl_state := model_free_state |}.

(** A file system that holds a generated model, and one in which a
    regular file sits where the data directory should be. *)
Definition fs_with_model : FS :=
  {[ ["srv"] := Dir; ["srv"; "data"] := Dir;
     ["srv"; "data"; "model"] := File ]}.

Definition fs_blocked : FS :=
  {[ ["srv"] := Dir; ["srv"; "data"] := File ]}.

Definition one_feature : gmap Z (list Z) := {[ 7%Z := [1%Z; 2%Z] ]}.

(** ** The registry built from exported classes *)

(** [class_map[cls.__name__] = cls] for a run of class objects. *)
Definition register_all (class_map : gmap string PyVal)
    (classes : list PyClass) : gmap string PyVal :=
  foldl (λ m c, <[cls_name c := VClass c]> m) class_map classes.

(** ** Concrete plugin directories *)

Definition object_id : string * string := ("__builtin__", "object").

(** A class named [name], defined in [module], that derives from
    [Indexer]. *)
Definition indexer_subclass (module name : string) : PyClass :=
  {| cls_module := module; cls_name := name;
     cls_ancestors := [cls_id Indexer_class; object_id] |}.

(** A class named [name], defined in [module], that derives from [object]
    only. *)
Definition plain_class (module name : string) : PyClass :=
  {| cls_module := module; cls_name := name;
     cls_ancestors := [object_id] |}.

(** The import system over the modules that exist: a module is found
    under its [__name__], anything else is an [ImportError]. *)
Fixpoint import_from (modules : list PyModule) (path : string)
  : result PyModule :=
  match modules with
  | [] => Raise (ImportError path)
  | m :: rest =>
      if bool_decide (mod_name m = path) then Ok m
      else import_from rest path
  end.

(** The package [SMQTK.Indexers] with the given directory listing and
    importable submodules. *)
Definition plugin_dir (files : list string) (modules : list PyModule)
  : DiscoveryEnv :=
  {| pkg_name := "SMQTK.Indexers";
     listdir := files;
     import_module := import_from modules |}.

(** [utils.py]: a module that exports nothing. *)
Definition utils_module : PyModule :=
  {| mod_name := "SMQTK.Indexers.utils";
     mod_globals := {[ "CHUNK_SIZE" := VInt 1024 ]} |}.

(** [foo.py]: no [INDEXER_CLASS], and a class [foo] that is not an
    indexer. *)
Definition foo_class : PyClass := plain_class "SMQTK.Indexers.foo" "foo".

Definition foo_module : PyModule :=
  {| mod_name := "SMQTK.Indexers.foo";
     mod_globals := {[ "foo" := VClass foo_class ]} |}.

(** [bundle.py]: [INDEXER_CLASS] names a class that is not an indexer,
    once inside a list and once on its own. *)
Definition Helper : PyClass := plain_class "SMQTK.Indexers.bundle" "Helper".

Definition bundle_list_module : PyModule :=
  {| mod_name := "SMQTK.Indexers.bundle";
     mod_globals := {[ "INDEXER_CLASS" := VList [VClass Helper] ]} |}.

Definition bundle_single_module : PyModule :=
  {| mod_name := "SMQTK.Indexers.bundle";
     mod_globals := {[ "INDEXER_CLASS" := VClass Helper ]} |}.

(** A well-formed plugin, stored once as [2nn.py] and once as [nn2.py]. *)
Definition TwoNN (module : string) : PyClass := indexer_subclass module "TwoNN".

Definition nn_module (module : string) : PyModule :=
  {| mod_name := module;
     mod_globals := {[ "INDEXER_CLASS" := VClass (TwoNN module) ]} |}.

(** [svm.py] exports two indexers in a list; [knn.py] exports one whose
    name is that of the second. *)
Definition TypeA : PyClass := indexer_subclass "SMQTK.Indexers.svm" "TypeA".
Definition TypeB : PyClass := indexer_subclass "SMQTK.Indexers.svm" "TypeB".
Definition TypeB_knn : PyClass := indexer_subclass "SMQTK.Indexers.knn" "TypeB".

Definition svm_module : PyModule :=
  {| mod_name := "SMQTK.Indexers.svm";
     mod_globals := {[ "INDEXER_CLASS" := VList [VClass TypeA; VClass TypeB] ]} |}.

Definition knn_module : PyModule :=
  {| mod_name := "SMQTK.Indexers.knn";
     mod_globals := {[ "INDEXER_CLASS" := VClass TypeB_knn ]} |}.

(** ** Auxiliary notions for discovery *)

(** The same surroundings with another directory listing. *)
Definition with_listdir (env : DiscoveryEnv) (files : list string)
  : DiscoveryEnv :=
  {| pkg_name := pkg_name env;
     listdir := files;
     import_module := import_module env |}.

(** [module_path] for a directory entry: the dotted name it is imported
    under. *)
Definition module_path_of (env : DiscoveryEnv) (module_file : string)
  : string :=
  dot_join (pkg_name env) (fst (splitext module_file)).

(** ** Auxiliary notions for the base class *)

(** A computation keeps the entries of the file system when, whatever its
    outcome, everything that existed before is still there unchanged and
    whatever is new is a directory. *)
Definition keeps_entries {A} (m : M A) : Prop :=
  ∀ (fs fs' : FS) (r : result A), m fs = (r, fs') →
    (∀ q n, fs !! q = Some n → fs' !! q = Some n)
    ∧ (∀ q, fs !! q = None → fs' !! q = None ∨ fs' !! q = Some Dir).

(** The class of the instances over a state type: [self.__class__]. *)
Class IndexerType (State : Type) := indexer_class : PyClass.

(** The [name] property: [self.__class__.__name__]. *)
Definition name {State : Type} `{!IndexerType State} (self : Indexer State)
  : string :=
  cls_name (indexer_class (State := State)).

(** * [bin/CreateIngest.py]

    [main] from the point where [parser.parse_args()] has returned
    [opts] and [args].  The configuration module [smqtk_config] and the
    class [SMQTK.utils.DataIngest] are taken as parameters, as are
    [os.path.isfile] and [glob.glob]; the logging set-up and the [print]
    of the arguments are left out. *)

(** [KeyError] and [IndexError] join the exceptions of the library. *)
Inductive MainExc :=
| Py (e : PyExc)
| KeyError (key : string)
| IndexError.

Inductive outcome (A : Type) :=
| Done (a : A)
| Failed (e : MainExc).
Arguments Done {A} a.
Arguments Failed {A} e.

Global Instance outcome_bind : MBind outcome := λ A B k r,
  match r with
  | Done a => k a
  | Failed e => Failed e
  end.

(** The option values: [opts.type], [opts.d] ([None] when not given) and
    [opts.verbose]. *)
Record Options := {
  opt_type : option string;
  opt_d : option string;
  opt_verbose : bool
}.

(** What [main] reads from [smqtk_config]. *)
Record SmqtkConfig := {
  DATA_DIR : string;
  WORK_DIR : string;
  SYSTEM_CONFIG : gmap string (gmap string string)
}.

(** The world [main] acts on, of type [W], and the ingest object, of type
    [Ing]: the two queries on the file system, the constructor
    [DataIngest(target_dir, work_dir)] and the method [add_data_file],
    which may both change the world and may raise. *)
Record IngestOps (W Ing : Type) := {
  isfile : W → string → bool;
  glob : W → string → list string;
  DataIngest : string → string → W → result Ing * W;
  add_data_file : Ing → string → W → result Ing * W
}.
Arguments isfile {W Ing} _ _ _.
Arguments glob {W Ing} _ _ _.
Arguments DataIngest {W Ing} _ _ _ _.
Arguments add_data_file {W Ing} _ _ _ _.

(** ["%s" % v] for a string or [None]. *)
Definition percent_s (v : option string) : string :=
  match v with
  | Some s => s
  | None => "None"
  end.

(** [c.upper()] for a character of a byte string. *)
Definition upper (c : ascii) : ascii :=
  let n := nat_of_ascii c in
  if Nat.leb 97 n && Nat.leb n 122 then ascii_of_nat (n - 32) else c.

(** [t[0].upper() + t[1:]] *)
Definition capitalize_first (t : string) : outcome string :=
  match t with
  | EmptyString => Failed IndexError
  | String c rest => Done (String (upper c) rest)
  end.

(** [smqtk_config.SYSTEM_CONFIG['Ingest'][t]] *)
Definition ingest_subdir (cfg : SmqtkConfig) (t : string) : outcome string :=
  match SYSTEM_CONFIG cfg !! "Ingest" with
  | None => Failed (KeyError "Ingest")
  | Some ingest_config =>
      match ingest_config !! t with
      | None => Failed (KeyError t)
      | Some subdir => Done subdir
      end
  end.

Definition starts_with_slash (s : string) : bool :=
  match s with
  | String c _ => Ascii.eqb c "/"
  | EmptyString => false
  end.

Fixpoint ends_with_slash (s : string) : bool :=
  match s with
  | EmptyString => false
  | String c EmptyString => Ascii.eqb c "/"
  | String _ s' => ends_with_slash s'
  end.

(** [os.path.join(a, b)] of [posixpath]. *)
Definition osp_join (a b : string) : string :=
  if starts_with_slash b then b
  else if bool_decide (a = "") || ends_with_slash a then a +:+ b
  else a +:+ "/" +:+ b.

(** The [RuntimeError] for an ingest type that is not supported. *)
Definition invalid_type_error (given : option string) : MainExc :=
  Py (RuntimeError ["Invalid ingest type! Given: " +:+ percent_s given]).

(** [main] up to the construction of the ingest: the check of the type,
    and [target_dir] and [work_dir]. *)
Definition main_setup (cfg : SmqtkConfig) (opts : Options)
  : outcome (string * string) :=
  match opt_type opts with
  | None => Failed (invalid_type_error None)
  | Some type =>
      if negb (bool_decide (type ∈ ["image"; "video"])) then
        Failed (invalid_type_error (Some type))
      else
        t ← capitalize_first type;
        target_dir ←
          match opt_d opts with
          | Some d =>
              if negb (bool_decide (d = "")) then Done d
              else subdir ← ingest_subdir cfg t;
                   Done (osp_join (DATA_DIR cfg) subdir)
          | None =>
              subdir ← ingest_subdir cfg t;
              Done (osp_join (DATA_DIR cfg) subdir)
          end;
        subdir ← ingest_subdir cfg t;
        Done (target_dir, osp_join (WORK_DIR cfg) subdir)
  end.

(** [ingest.add_data_file(fp)] for each path in turn. *)
Fixpoint add_paths {W Ing} (ops : IngestOps W Ing) (ingest : Ing)
    (paths : list string) (w : W) : outcome Ing * W :=
  match paths with
  | [] => (Done ingest, w)
  | fp :: rest =>
      match add_data_file ops ingest fp w with
      | (Ok ingest', w') => add_paths ops ingest' rest w'
      | (Raise e, w') => (Failed (Py e), w')
      end
  end.

(** The [for g in args] loop: an argument that is a file is added as it
    is, any other is expanded by [glob.glob]. *)
Fixpoint add_args {W Ing} (ops : IngestOps W Ing) (ingest : Ing)
    (args : list string) (w : W) : outcome Ing * W :=
  match args with
  | [] => (Done ingest, w)
  | g :: rest =>
      let paths := if isfile ops w g then [g] else glob ops w g in
      match add_paths ops ingest paths w with
      | (Done ingest', w') => add_args ops ingest' rest w'
      | (Failed e, w') => (Failed e, w')
      end
  end.

(** [main]; the value returned here is the ingest as the loop leaves
    it. *)
Definition main {W Ing} (cfg : SmqtkConfig) (ops : IngestOps W Ing)
    (opts : Options) (args : list string) (w : W) : outcome Ing * W :=
  match main_setup cfg opts with
  | Failed e => (Failed e, w)
  | Done (target_dir, work_dir) =>
      match DataIngest ops target_dir work_dir w with
      | (Raise e, w') => (Failed (Py e), w')
      | (Ok ingest, w') => add_args ops ingest args w'
      end
  end.

(** A world that is the set of its regular files, with an ingest that
    records the paths added to it and refuses what is not a file. *)
Definition listing_ops (pattern : string) (matches_of_pattern : list string)
  : IngestOps (list string) (list string) :=
  {| isfile := λ w p, bool_decide (p ∈ w);
     glob := λ w g,
       if bool_decide (g = pattern)
       then filter (λ p, p ∈ w) matches_of_pattern else [];
     DataIngest := λ _ _ w, (Ok [], w);
     add_data_file := λ ingest p w,
       if bool_decide (p ∈ w) then (Ok (ingest ++ [p])%list, w)
       else (Raise (OSError ENOENT p), w) |}.

Definition sample_config : SmqtkConfig :=
  {| DATA_DIR := "/data"; WORK_DIR := "/work/";
     SYSTEM_CONFIG :=
       {[ "Ingest" := {[ "Image" := "images"; "Video" := "/mnt/videos" ]} ]} |}.

Definition image_options : Options :=
  {| opt_type := Some "image"; opt_d := None; opt_verbose := false |}.

(** ** Further concrete inputs *)

(** The package's own [__init__], were it imported as a submodule. *)
Definition init_module : PyModule :=
  {| mod_name := "SMQTK.Indexers.__init__"; mod_globals := ∅ |}.

(** The instances over [ModelFile] are taken to be of class [TypeA]. *)
Global Instance model_file_type : IndexerType ModelFile := TypeA.

(** * Properties *)

(** ** File-system lemmas *)

Lemma mkdir_all_lookup (locs : list (list string)) (fs : FS) (q : list string) :
  mkdir_all locs fs !! q = if bool_decide (q ∈ locs) then Some Dir else fs !! q.
Proof.
  induction locs as [|loc locs IH]; simpl; [done|].
  destruct (decide (loc = q)) as [->|Hne].
  - rewrite lookup_insert_eq, bool_decide_eq_true_2; [done | by left].
  - rewrite lookup_insert_ne, IH by done.
    destruct (decide (q ∈ locs)) as [Hin|Hin].
    + rewrite !bool_decide_eq_true_2; [done | by right | done].
    + rewrite !bool_decide_eq_false_2; [done | | done].
      intros [?|?]%elem_of_cons; congruence.
Qed.

Lemma existsb_false_Forall {A} (f : A → bool) (l : list A) :
  existsb f l = false → Forall (λ x, f x = false) l.
Proof.
  induction l as [|x l IH]; simpl; [constructor|].
  intros [Hx Hl]%orb_false_iff. constructor; auto.
Qed.

Lemma ancestors_prefix (cs q : list string) :
  q ∈ (ancestors cs ++ [cs])%list → q `prefix_of` cs.
Proof.
  rewrite elem_of_app, list_elem_of_singleton.
  intros [Hq | ->]; [|done].
  unfold ancestors in Hq. apply list_elem_of_fmap in Hq as (k & -> & _).
  apply prefix_take.
Qed.

(** What a successful [os.makedirs] found and did. *)
Lemma os_makedirs_Ok_inv (fs fs' : FS) (p : string) :
  os_makedirs fs p = Ok fs' →
  p ≠ "" ∧ path_components p ≠ [] ∧ fs !! path_components p = None
  ∧ Forall (λ loc, fs !! loc ≠ Some File) (ancestors (path_components p))
  ∧ fs' = mkdir_all
            (ancestors (path_components p) ++ [path_components p])%list fs.
Proof.
  unfold os_makedirs.
  repeat case_bool_decide; try discriminate.
  destruct (existsb _ _) eqn:Hanc; [discriminate|].
  intros [= <-]. repeat split; try done.
  - by apply eq_None_not_Some.
  - apply existsb_false_Forall in Hanc.
    eapply Forall_impl; [exact Hanc|]. simpl.
    intros loc Hloc. by apply bool_decide_eq_false in Hloc.
Qed.

Lemma os_makedirs_isdir (fs fs' : FS) (p : string) :
  os_makedirs fs p = Ok fs' → os_path_isdir fs' p = true.
Proof.
  intros (Hp & Hcs & _ & _ & ->)%os_makedirs_Ok_inv.
  unfold os_path_isdir. rewrite bool_decide_eq_false_2 by done.
  destruct (path_components p) as [|c cs] eqn:E; [done|].
  apply bool_decide_eq_true. rewrite mkdir_all_lookup.
  rewrite bool_decide_eq_true_2; [done|]. set_solver.
Qed.

(** Nothing that existed is removed or replaced. *)
Lemma os_makedirs_preserves (fs fs' : FS) (p : string) (q : list string) (n : node) :
  os_makedirs fs p = Ok fs' → fs !! q = Some n → fs' !! q = Some n.
Proof.
  intros (_ & _ & Hleaf & Hanc & ->)%os_makedirs_Ok_inv Hq.
  rewrite mkdir_all_lookup. case_bool_decide as Hin; [|done].
  apply elem_of_app in Hin as [Hin | Hin%list_elem_of_singleton].
  - rewrite Forall_forall in Hanc. specialize (Hanc q Hin).
    destruct n; congruence.
  - congruence.
Qed.

(** Only the leaf and its ancestors can be new, and they are directories. *)
Lemma os_makedirs_changes (fs fs' : FS) (p : string) (q : list string) :
  os_makedirs fs p = Ok fs' → fs' !! q ≠ fs !! q →
  fs' !! q = Some Dir ∧ q `prefix_of` path_components p.
Proof.
  intros (_ & _ & _ & _ & ->)%os_makedirs_Ok_inv.
  rewrite mkdir_all_lookup. case_bool_decide as Hin; [|done].
  intros _. split; [done | by apply ancestors_prefix].
Qed.

Lemma os_path_isdir_makedirs_fails (fs : FS) (p : string) :
  os_path_isdir fs p = true → is_Raise (os_makedirs fs p).
Proof.
  unfold os_path_isdir, os_makedirs, is_Raise.
  case_bool_decide; [done|].
  destruct (path_components p) as [|c cs] eqn:E; simpl; [eauto|].
  intros Hd%bool_decide_eq_true.
  rewrite (bool_decide_eq_true_2 (is_Some _)); eauto.
Qed.

Lemma os_makedirs_Raise_OSError (fs : FS) (p : string) (e : PyExc) :
  os_makedirs fs p = Raise e → ∃ code, e = OSError code p.
Proof.
  unfold os_makedirs.
  repeat case_bool_decide; try (intros [= <-]; eauto).
  destruct (existsb _ _); intros [= <-]; eauto.
Qed.

(** ** Properties of the [Indexer] base class *)

Lemma check_then_create_ensures_directory (access : M string) (p : string) :
  (∀ fs : FS, access fs =
     if os_path_isdir fs p then (Ok p, fs)
     else match os_makedirs fs p with
          | Ok fs' => (Ok p, fs')
          | Raise e => (Raise e, fs)
          end) →
  ensures_directory access p.
Proof.
  intros Heq fs. split; [|split].
  - intros Hd. by rewrite Heq, Hd.
  - intros Hd fs' Hmk.
    pose proof (os_makedirs_isdir _ _ _ Hmk) as Hd'.
    split; [by rewrite Heq, Hd, Hmk|]. split; [done|].
    by rewrite Heq, Hd'.
  - intros Hd e Hmk. by rewrite Heq, Hd, Hmk.
Qed.

Section IndexerProperties.
Context {State : Type} {impl : IndexerImpl State}.
Context {Feature : Type}.
Implicit Types (self : Indexer State) (fs : FS).

(** Both properties are the same check-then-create on their attribute. *)
Lemma data_dir_eq self fs :
  data_dir self fs =
    if os_path_isdir fs (_data_dir self) then (Ok (_data_dir self), fs)
    else match os_makedirs fs (_data_dir self) with
         | Ok fs' => (Ok (_data_dir self), fs')
         | Raise e => (Raise e, fs)
         end.
Proof.
  unfold data_dir, isdir, makedirs, mbind, M_bind, mret, M_ret.
  destruct (os_path_isdir fs (_data_dir self)); simpl; [done|].
  by destruct (os_makedirs fs (_data_dir self)).
Qed.

Lemma work_dir_eq self fs :
  work_dir self fs =
    if os_path_isdir fs (_work_dir self) then (Ok (_work_dir self), fs)
    else match os_makedirs fs (_work_dir self) with
         | Ok fs' => (Ok (_work_dir self), fs')
         | Raise e => (Raise e, fs)
         end.
Proof.
  unfold work_dir, isdir, makedirs, mbind, M_bind, mret, M_ret.
  destruct (os_path_isdir fs (_work_dir self)); simpl; [done|].
  by destruct (os_makedirs fs (_work_dir self)).
Qed.

(** [generate_model] on an instance that reports a model: the outcome is
    that of the [data_dir] access made for the error text. *)
Lemma generate_model_has_model_eq self (feature_map : gmap Z Feature)
    parallel fs :
  has_model self fs = true →
  generate_model self feature_map parallel fs =
    match data_dir self fs with
    | (Ok location, fs') =>
        (Raise (RuntimeError [model_exists_message location]), fs')
    | (Raise e, fs') => (Raise e, fs')
    end.
Proof.
  intros Hm. unfold generate_model, has_model_call, mbind, M_bind. simpl.
  rewrite Hm. by destruct (data_dir self fs) as [[location|e] fs'].
Qed.

Lemma generate_model_has_model_cases self (feature_map : gmap Z Feature)
    parallel fs :
  has_model self fs = true →
  (os_path_isdir fs (_data_dir self) = true
   ∧ generate_model self feature_map parallel fs =
       (Raise (RuntimeError [model_exists_message (_data_dir self)]), fs))
  ∨ (os_path_isdir fs (_data_dir self) = false
     ∧ ∃ fs', os_makedirs fs (_data_dir self) = Ok fs'
       ∧ generate_model self feature_map parallel fs =
           (Raise (RuntimeError [model_exists_message (_data_dir self)]),
            fs'))
  ∨ (os_path_isdir fs (_data_dir self) = false
     ∧ ∃ e, os_makedirs fs (_data_dir self) = Raise e
       ∧ generate_model self feature_map parallel fs = (Raise e, fs)).
Proof.
  intros Hm. rewrite (generate_model_has_model_eq _ _ _ _ Hm), data_dir_eq.
  destruct (os_path_isdir fs (_data_dir self)); [by left|].
  right. destruct (os_makedirs fs (_data_dir self)) as [fs'|e] eqn:Hmk.
  - left. eauto.
  - right. eauto.
Qed.

(** C9 (amended): for every indexer instance, [data_dir] and [work_dir]
    return the path given at construction, leaving the file system alone
    when the directory is present and creating it with [os.makedirs]
    exactly when it is absent, provided that [os.makedirs] succeeds;
    after a successful access the directory is present, so the next
    access creates nothing and raises nothing.  When [os.makedirs]
    raises, the access raises that exception in place of returning the
    path. *)
Theorem dir_handles_ensure_directory self :
  ensures_directory (data_dir self) (_data_dir self)
  ∧ ensures_directory (work_dir self) (_work_dir self).
Proof.
  split; apply check_then_create_ensures_directory; intros fs.
  - apply data_dir_eq.
  - apply work_dir_eq.
Qed.

(** C4 (amended): on every instance whose [has_model()] is true,
    [generate_model] never returns normally and overwrites nothing: it
    raises the model-already-exists [RuntimeError] whenever the data
    directory is present or can be created for the error text, and
    otherwise the [OSError] of that creation.  Every entry of the file
    system is kept as it was; the only entries that can be new are the
    data directory and its ancestors, as empty directories. *)
Theorem generate_model_existing_model self (feature_map : gmap Z Feature)
    parallel fs :
  has_model self fs = true →
  ∃ e fs',
    generate_model self feature_map parallel fs = (Raise e, fs')
    ∧ (os_path_isdir fs (_data_dir self) = true
       ∨ is_Ok (os_makedirs fs (_data_dir self)) →
       e = RuntimeError [model_exists_message (_data_dir self)]
       ∧ ModelAlreadyExistsError e)
    ∧ (os_path_isdir fs (_data_dir self) = false →
       ∀ e', os_makedirs fs (_data_dir self) = Raise e' →
       e = e' ∧ fs' = fs)
    ∧ (os_path_isdir fs (_data_dir self) = true → fs' = fs)
    ∧ (∀ q n, fs !! q = Some n → fs' !! q = Some n)
    ∧ (∀ q, fs' !! q ≠ fs !! q →
       fs' !! q = Some Dir
       ∧ q `prefix_of` path_components (_data_dir self)).
Proof.
  intros Hm.
  destruct (generate_model_has_model_cases self feature_map parallel fs Hm)
    as [(Hd & ->) | [(Hd & fs' & Hmk & ->) | (Hd & e & Hmk & ->)]].
  - eexists _, fs. split; [done|]. split_and!; try done.
    + intros _. split; [done | by eexists].
    + congruence.
  - eexists _, fs'. split; [done|]. split_and!.
    + intros _. split; [done | by eexists].
    + congruence.
    + congruence.
    + intros q n. by apply (os_makedirs_preserves _ _ _ _ _ Hmk).
    + intros q. by apply (os_makedirs_changes _ _ _ _ Hmk).
  - eexists e, fs. split; [done|]. split_and!; try done.
    + intros [?|[? ?]]; congruence.
    + intros _ e' ?. split; congruence.
Qed.

(** C5: on every instance whose [has_model()] is false, [extend_model],
    [rank_model] and [reset] each raise the no-model [RuntimeError] at
    once, leaving the file system as it was. *)
Theorem no_model_operations_fail self (id_feature_map : gmap Z Feature)
    parallel pos_ids neg_ids fs :
  has_model self fs = false →
  extend_model self id_feature_map parallel fs
    = (Raise (RuntimeError [no_model_message]), fs)
  ∧ rank_model self pos_ids neg_ids fs
    = (Raise (RuntimeError [no_model_message]), fs)
  ∧ reset self fs = (Raise (RuntimeError [no_model_reset_message]), fs)
  ∧ NoModelError (RuntimeError [no_model_message])
  ∧ NoModelError (RuntimeError [no_model_reset_message]).
Proof.
  intros Hm.
  unfold extend_model, rank_model, reset, has_model_call, mbind, M_bind.
  simpl. rewrite Hm. simpl.
split_and!; [done | done | done | by left | by right].
Qed.

(** C6: on every instance without a model, [generate_model] with an
    empty feature map raises the empty-input [ValueError]; the file
    system is untouched, so nothing of a model is generated and
    [has_model()] is still false afterwards. *)
Theorem generate_model_empty_input self parallel fs :
  has_model self fs = false →
  ∃ e fs',
    generate_model self (∅ : gmap Z Feature) parallel fs = (Raise e, fs')
    ∧ EmptyInputError e ∧ fs' = fs ∧ has_model self fs' = false.
Proof.
  intros Hm. exists (ValueError [empty_feature_map_message]), fs.
  unfold generate_model, has_model_call, mbind, M_bind. simpl.
  rewrite Hm. by rewrite map_size_empty.
Qed.

(** C10 (amended): the model check comes before the input check: on
    every instance whose [has_model()] is true, [generate_model] with an
    empty feature map never raises the empty-input [ValueError]; it
    raises the model-already-exists [RuntimeError] whenever the data
    directory is present or can be created for the error text, and
    otherwise the [OSError] of that creation. *)
Theorem generate_model_checks_model_first self
    (feature_map : gmap Z Feature) parallel fs :
  has_model self fs = true → size feature_map = 0 →
  ∃ e fs',
    generate_model self feature_map parallel fs = (Raise e, fs')
    ∧ ¬ EmptyInputError e
    ∧ (os_path_isdir fs (_data_dir self) = true
       ∨ is_Ok (os_makedirs fs (_data_dir self)) →
       ModelAlreadyExistsError e)
    ∧ (¬ ModelAlreadyExistsError e →
       os_makedirs fs (_data_dir self) = Raise e).
Proof.
  intros Hm _.
  destruct (generate_model_has_model_cases self feature_map parallel fs Hm)
    as [(Hd & ->) | [(Hd & fs' & Hmk & ->) | (Hd & e & Hmk & ->)]].
  - eexists _, fs. split; [done|]. split_and!.
    + by intros [=].
    + intros _. by eexists.
    + intros []. by eexists.
  - eexists _, fs'. split; [done|]. split_and!.
    + by intros [=].
    + intros _. by eexists.
    + intros []. by eexists.
  - eexists e, fs. split; [done|].
    destruct (os_makedirs_Raise_OSError _ _ _ Hmk) as [code ->].
    split_and!.
    + by intros [=].
    + intros [?|[? ?]]; congruence.
    + done.
Qed.

End IndexerProperties.

(** ** The base class on concrete instances *)

Lemma dir_handles_ensure_directory_witness :
  data_dir file_indexer ∅
    = (Ok "/srv/data", {[ ["srv"] := Dir; ["srv"; "data"] := Dir ]})
  ∧ work_dir file_indexer fs_with_model
    = (Ok "/srv/work", <[ ["srv"; "work"] := Dir ]> fs_with_model)
  ∧ data_dir file_indexer fs_with_model = (Ok "/srv/data", fs_with_model).
Proof.
  destruct (dir_handles_ensure_directory file_indexer) as [Hdata Hwork].
  split_and!.
  - destruct (Hdata ∅) as (_ & Hcreate & _).
    refine (proj1 (Hcreate _ _ _)); reflexivity.
  - destruct (Hwork fs_with_model) as (_ & Hcreate & _).
    refine (proj1 (Hcreate _ _ _)); reflexivity.
  - destruct (Hdata fs_with_model) as (Hpresent & _).
    apply Hpresent. reflexivity.
Defined.

(** C9, as stated, fails where the path is taken by something that is not
    a directory: no directory exists there, yet the access neither returns
    the path nor creates the directory. *)
Lemma data_dir_blocked_by_file :
  os_path_isdir fs_blocked (_data_dir file_indexer) = false
  ∧ data_dir file_indexer fs_blocked
    = (Raise (OSError EEXIST "/srv/data"), fs_blocked)
  ∧ ¬ (∀ fs : FS, ∃ fs',
         data_dir file_indexer fs = (Ok (_data_dir file_indexer), fs')).
Proof.
  split_and!; [reflexivity | reflexivity |].
  intros Hall. destruct (Hall fs_blocked) as [fs' Hfs']. discriminate Hfs'.
Qed.

Lemma generate_model_existing_model_witness :
  has_model file_indexer fs_with_model = true
  ∧ generate_model file_indexer one_feature None fs_with_model
    = (Raise (RuntimeError [model_exists_message "/srv/data"]), fs_with_model).
Proof.
  split; [reflexivity|].
  destruct (generate_model_existing_model file_indexer one_feature None
              fs_with_model eq_refl)
    as (e & fs' & -> & He & _ & Hfs & _).
  destruct (He (or_introl eq_refl)) as [-> _].
  by rewrite (Hfs eq_refl).
Defined.

(** C4, as stated, fails on an instance that reports a model while a
    regular file sits where its data directory should be: building the
    error text reads the [data_dir] property, whose [os.makedirs] raises
    an [OSError] in place of the model-already-exists error. *)
Lemma generate_model_existing_model_blocked_dir :
  has_model free_indexer fs_blocked = true
  ∧ generate_model free_indexer one_feature None fs_blocked
    = (Raise (OSError EEXIST "/srv/data"), fs_blocked)
  ∧ ¬ ModelAlreadyExistsError (OSError EEXIST "/srv/data").
Proof.
  split_and!; [reflexivity | reflexivity |].
  intros [location Hloc]. discriminate Hloc.
Qed.

Lemma no_model_operations_fail_witness :
  has_model file_indexer ∅ = false
  ∧ extend_model file_indexer one_feature None ∅
    = (Raise (RuntimeError ["No model available for this indexer."]), ∅)
  ∧ rank_model file_indexer [7%Z] [] ∅
    = (Raise (RuntimeError ["No model available for this indexer."]), ∅)
  ∧ reset file_indexer ∅
    = (Raise (RuntimeError
                ["No model available for this indexer to reset to."]), ∅).
Proof.
  split; [reflexivity|].
  destruct (no_model_operations_fail file_indexer one_feature None
              [7%Z] [] ∅ eq_refl)
    as (Hext & Hrank & Hreset & _).
  split_and!; [exact Hext | exact Hrank | exact Hreset].
Defined.

Lemma generate_model_empty_input_witness :
  has_model file_indexer ∅ = false
  ∧ ∃ e fs',
      generate_model file_indexer (∅ : gmap Z (list Z)) None ∅
        = (Raise e, fs')
      ∧ EmptyInputError e ∧ fs' = ∅ ∧ has_model file_indexer fs' = false.
Proof.
  split; [reflexivity|].
  apply (generate_model_empty_input file_indexer None ∅). reflexivity.
Defined.

Lemma generate_model_checks_model_first_witness :
  has_model file_indexer fs_with_model = true
  ∧ size (∅ : gmap Z (list Z)) = 0
  ∧ ∃ e fs',
      generate_model file_indexer (∅ : gmap Z (list Z)) None fs_with_model
        = (Raise e, fs')
      ∧ ModelAlreadyExistsError e.
Proof.
  assert (Hempty : size (∅ : gmap Z (list Z)) = 0) by reflexivity.
  split; [reflexivity|]. split; [exact Hempty|].
  destruct (generate_model_checks_model_first file_indexer
              (∅ : gmap Z (list Z)) None fs_with_model eq_refl Hempty)
    as (e & fs' & Hrun & _ & He & _).
  exists e, fs'. split; [exact Hrun|].
  apply He. left. reflexivity.
Defined.

(** C10, as stated, fails on the same kind of instance: with an empty
    feature map and [has_model()] true, what is raised is the [OSError]
    of the blocked data directory, not the model-already-exists error
    (and not the empty-input error either). *)
Lemma generate_model_empty_input_blocked_dir :
  has_model free_indexer fs_blocked = true
  ∧ generate_model free_indexer (∅ : gmap Z (list Z)) None fs_blocked
    = (Raise (OSError EEXIST "/srv/data"), fs_blocked)
  ∧ ¬ ModelAlreadyExistsError (OSError EEXIST "/srv/data")
  ∧ ¬ EmptyInputError (OSError EEXIST "/srv/data").
Proof.
  split_and!; [reflexivity | reflexivity | |].
  - intros [location Hloc]. discriminate Hloc.
  - intros Hempty. discriminate Hempty.
Qed.

(** ** The matcher against the denotation of regular expressions *)

Lemma append_cons (a : ascii) (s t : string) :
  String a s +:+ t = String a (s +:+ t).
Proof. reflexivity. Qed.

Lemma append_empty_inv (s1 s2 : string) :
  s1 +:+ s2 = "" → s1 = "" ∧ s2 = "".
Proof. destruct s1; [done | rewrite append_cons; discriminate]. Qed.

Lemma append_empty_r (s : string) : s +:+ "" = s.
Proof.
  induction s as [|a s IH]; [done|]. by rewrite append_cons, IH.
Qed.

(** A non-empty concatenation starts in its first part, or its first part
    is empty. *)
Lemma append_cons_inv (s1 s2 s : string) (a : ascii) :
  s1 +:+ s2 = String a s →
  (s1 = "" ∧ s2 = String a s) ∨ (∃ s1', s1 = String a s1' ∧ s = s1' +:+ s2).
Proof.
  destruct s1 as [|b s1]; [by left|].
  rewrite append_cons. intros [= -> <-]. right. by eexists.
Qed.

Lemma nullable_matches (r : regex) : nullable r = true ↔ matches r "".
Proof.
  split.
  - induction r; simpl; try discriminate; intros Hn.
    + constructor.
    + apply andb_true_iff in Hn as [Hn1 Hn2].
      change "" with ("" +:+ ""). constructor; auto.
    + apply orb_true_iff in Hn as [Hn|Hn];
        [apply matches_Alt_l | apply matches_Alt_r]; auto.
    + constructor.
    + constructor.
  - intros Hm. remember "" as s eqn:Hs.
    induction Hm; simpl; try discriminate; try done.
    + apply append_empty_inv in Hs as [-> ->].
      apply andb_true_iff; auto.
    + apply orb_true_iff; auto.
    + apply orb_true_iff; auto.
Qed.

Lemma matches_deriv (a : ascii) (r : regex) (s : string) :
  matches r (String a s) → matches (deriv a r) s.
Proof.
  intros Hm. remember (String a s) as t eqn:Ht. revert a s Ht.
  induction Hm as [ | c | p c Hp | c Hc | r1 r2 s1 s2 Hm1 IH1 Hm2 IH2
                    | r1 r2 t Hm IH | r1 r2 t Hm IH | r
                    | r s1 s2 Hm1 IH1 Hm2 IH2 | r | r t Hm IH ];
    intros a s Ht; simpl.
  - discriminate.
  - injection Ht as -> <-. rewrite Ascii.eqb_refl. constructor.
  - injection Ht as -> <-. rewrite Hp. constructor.
  - injection Ht as -> <-.
    destruct (Ascii.eqb a newline) eqn:Heq; [|constructor].
    by apply Ascii.eqb_eq in Heq.
  - apply append_cons_inv in Ht as [[-> ->] | (s1' & -> & ->)].
    + apply nullable_matches in Hm1 as ->.
      apply matches_Alt_r. by apply IH2.
    + assert (matches (Cat (deriv a r1) r2) (s1' +:+ s2)) as Hcat
        by (constructor; auto).
      destruct (nullable r1); [by apply matches_Alt_l | done].
  - apply matches_Alt_l. by apply IH.
  - apply matches_Alt_r. by apply IH.
  - discriminate.
  - apply append_cons_inv in Ht as [[-> ->] | (s1' & -> & ->)].
    + by apply IH2.
    + constructor; auto.
  - discriminate.
  - by apply IH.
Qed.

Lemma deriv_matches (a : ascii) (r : regex) (s : string) :
  matches (deriv a r) s → matches r (String a s).
Proof.
  revert s. induction r as [ | | c | p | | r1 IH1 r2 IH2 | r1 IH1 r2 IH2
                             | r IH | r IH ]; intros s; simpl.
  - inversion 1.
  - inversion 1.
  - destruct (Ascii.eqb a c) eqn:Heq; inversion 1; subst.
    apply Ascii.eqb_eq in Heq as ->. constructor.
  - destruct (p a) eqn:Hp; inversion 1; subst. by constructor.
  - destruct (Ascii.eqb a newline) eqn:Heq; inversion 1; subst.
    constructor. intros ->. by rewrite Ascii.eqb_refl in Heq.
  - assert (∀ t, matches (Cat (deriv a r1) r2) t →
                 matches (Cat r1 r2) (String a t)) as Hcat.
    { inversion 1; subst.
      change (String a (?u +:+ ?v)) with (String a u +:+ v).
      constructor; auto. }
    destruct (nullable r1) eqn:Hn; [|by apply Hcat].
    inversion 1; subst; [by apply Hcat|].
    change (String a s) with ("" +:+ String a s).
    constructor; [by apply nullable_matches | auto].
  - inversion 1; subst;
      [apply matches_Alt_l | apply matches_Alt_r]; auto.
  - inversion 1; subst.
    change (String a (?u +:+ ?v)) with (String a u +:+ v).
    constructor; auto.
  - intros Hm. apply matches_Opt_some. auto.
Qed.

(** The matcher decides the denotation. *)
Lemma full_match_matches (r : regex) (s : string) :
  full_match r s = true ↔ matches r s.
Proof.
  revert r. induction s as [|a s IH]; intros r; simpl.
  - apply nullable_matches.
  - rewrite IH. split; [apply deriv_matches | apply matches_deriv].
Qed.

(** ** What [file_re] accepts *)

Lemma matches_Star_Dot (s : string) :
  matches (Star Dot) s ↔ newline_free s = true.
Proof.
  unfold newline_free. split.
  - intros Hm. remember (Star Dot) as r eqn:Hr.
    induction Hm as [ | | | | | | | r | r s1 s2 Hm1 _ Hm2 IH2 | | ];
      try discriminate; [done|].
    injection Hr as ->. inversion Hm1; subst.
    rewrite append_cons. simpl.
    destruct (Ascii.eqb c newline) eqn:Heq.
    + by apply Ascii.eqb_eq in Heq.
    + by apply IH2.
  - induction s as [|a s IH]; simpl; [constructor|].
    destruct (Ascii.eqb a newline) eqn:Heq; [done|]. intros Hs.
    change (String a s) with (String a "" +:+ s).
    constructor; [|by apply IH].
    constructor. intros ->. by rewrite Ascii.eqb_refl in Heq.
Qed.

Lemma matches_Lit_inv (c : ascii) (s : string) :
  matches (Lit c) s → s = String c "".
Proof. by inversion 1. Qed.

Lemma matches_dot_py (s : string) :
  matches (Opt (Cat (Lit ".") (Cat (Lit "p") (Lit "y")))) s →
  s = "" ∨ s = ".py".
Proof.
  inversion 1 as [ | | | | | | | | | | r t Hcat ]; subst; [by left|].
  right. inversion Hcat as [ | | | | r1 r2 s1 s2 Hdot Hpy | | | | | | ]; subst.
  inversion Hpy as [ | | | | r1 r2 t1 t2 Hp Hy | | | | | | ]; subst.
  apply matches_Lit_inv in Hdot as ->.
  apply matches_Lit_inv in Hp as ->.
  by apply matches_Lit_inv in Hy as ->.
Qed.

Lemma matches_end_anchor (s : string) :
  matches end_anchor s ↔ s = "" ∨ s = nl.
Proof.
  unfold end_anchor. split.
  - inversion 1 as [ | | | | | | | | | | r t Hlit ]; subst; [by left|].
    right. by apply matches_Lit_inv in Hlit.
  - intros [-> | ->]; [constructor|].
    apply matches_Opt_some. constructor.
Qed.

Lemma single_line_append (s1 s2 : string) :
  newline_free s1 = true → single_line (s1 +:+ s2) = single_line s2.
Proof.
  unfold newline_free. induction s1 as [|a s1 IH]; [done|].
  rewrite append_cons. simpl.
  destruct (Ascii.eqb a newline); [done | apply IH].
Qed.

Lemma single_line_split (s : string) :
  single_line s = true →
  ∃ body, newline_free body = true ∧ (s = body ∨ s = body +:+ nl).
Proof.
  induction s as [|a s IH]; simpl.
  - exists "". by split; [|left].
  - destruct (Ascii.eqb a newline) eqn:Heq.
    + intros ->%bool_decide_eq_true. apply Ascii.eqb_eq in Heq as ->.
      exists "". by split; [|right].
    + intros (body & Hfree & Hs)%IH. exists (String a body). split.
      * unfold newline_free in *. simpl. by rewrite Heq.
      * rewrite append_cons. destruct Hs as [-> | ->]; auto.
Qed.

(** The part of [file_re] after the first character accepts exactly the
    strings without a newline before their last character. *)
Lemma matches_file_re_tail (s : string) :
  matches (Cat (Star Dot)
               (Cat (Opt (Cat (Lit ".") (Cat (Lit "p") (Lit "y"))))
                    end_anchor)) s
  ↔ single_line s = true.
Proof.
  split.
  - inversion 1 as [ | | | | r1 r2 s1 s2 Hbody Hrest | | | | | | ]; subst.
    inversion Hrest as [ | | | | r1 r2 t1 t2 Hpy Hend | | | | | | ]; subst.
    apply matches_Star_Dot in Hbody. apply matches_dot_py in Hpy.
    apply matches_end_anchor in Hend.
    rewrite single_line_append by done.
    destruct Hpy as [-> | ->], Hend as [-> | ->]; reflexivity.
  - intros (body & Hfree & Hs)%single_line_split.
    apply matches_Star_Dot in Hfree. destruct Hs as [-> | ->].
    + rewrite <- (append_empty_r body).
      apply (matches_Cat _ _ body ""); [done|].
      by apply nullable_matches.
    + apply (matches_Cat _ _ body nl); [done|].
      apply (matches_Cat _ _ "" nl); [constructor|].
      apply matches_end_anchor. by right.
Qed.

(** [file_re] matches exactly the names that start with an ASCII letter
    and have no newline before their last character. *)
Lemma file_re_match_spec (module_file : string) :
  file_re_match module_file = true ↔
  ∃ c rest, module_file = String c rest
    ∧ is_ascii_letter c = true ∧ single_line rest = true.
Proof.
  unfold file_re_match, file_re. rewrite full_match_matches. split.
  - inversion 1 as [ | | | | r1 r2 s1 s2 Hfirst Hrest | | | | | | ]; subst.
    inversion Hfirst; subst. rewrite append_cons.
    eexists _, _. split; [done|]. split; [done|].
    by apply matches_file_re_tail.
  - intros (c & rest & -> & Hc & Hrest).
    change (String c rest) with (String c "" +:+ rest).
    constructor; [by constructor | by apply matches_file_re_tail].
Qed.

(** ** Properties of plugin discovery *)

(** *** Which directory entries are candidates *)

(** A candidate's name starts with an ASCII letter. *)
Lemma file_re_match_first_letter (c : ascii) (s : string) :
  file_re_match (String c s) = true → is_ascii_letter c = true.
Proof. by intros (c' & rest & [= <- _] & Hc & _)%file_re_match_spec. Qed.

Lemma file_re_match_hidden (s : string) :
  file_re_match (String "_" s) = false.
Proof.
  destruct (file_re_match (String "_" s)) eqn:Hmatch; [|done].
  by apply file_re_match_first_letter in Hmatch.
Qed.

Lemma entry_classes_not_candidate (env : DiscoveryEnv) (module_file : string) :
  file_re_match module_file = false → entry_classes env module_file = Ok [].
Proof. intros Hno. unfold entry_classes. by rewrite Hno. Qed.

Lemma get_indexers_loop_app (env : DiscoveryEnv) (files1 files2 : list string)
    (class_map : gmap string PyVal) :
  get_indexers_loop env (files1 ++ files2)%list class_map =
    (class_map' ← get_indexers_loop env files1 class_map;
     get_indexers_loop env files2 class_map').
Proof.
  revert class_map.
  induction files1 as [|f files1 IH]; intros class_map; simpl; [done|].
  destruct (entry_classes env f) as [classes|e]; simpl; [|done].
  destruct (register_classes classes class_map) as [class_map'|e]; simpl;
    [apply IH | done].
Qed.

(** An entry whose name does not match is never imported and leaves the
    registry and the outcome as they would be without it; so in
    particular every entry with a leading underscore. *)
Lemma get_indexers_loop_ignores (env : DiscoveryEnv)
    (before after : list string) (module_file : string)
    (class_map : gmap string PyVal) :
  file_re_match module_file = false →
  get_indexers_loop env (before ++ module_file :: after)%list class_map
  = get_indexers_loop env (before ++ after)%list class_map.
Proof.
  intros Hno. rewrite !get_indexers_loop_app.
  destruct (get_indexers_loop env before class_map) as [class_map'|e];
    simpl; [|done].
  by rewrite entry_classes_not_candidate.
Qed.

Lemma get_indexers_ignores_hidden (env : DiscoveryEnv)
    (before after : list string) (name : string) :
  listdir env = (before ++ String "_" name :: after)%list →
  get_indexers env = get_indexers_loop env (before ++ after)%list ∅.
Proof.
  intros Hdir. unfold get_indexers. rewrite Hdir.
  apply get_indexers_loop_ignores, file_re_match_hidden.
Qed.

(** *** Modules that export nothing *)

Lemma cl_classes_of_no_export (module_name : string) (module : PyModule) :
  mod_globals module !! standard_var = None →
  mod_globals module !! mod_name module = None →
  cl_classes_of module_name module = Ok [].
Proof. intros Hvar Hname. unfold cl_classes_of. by rewrite Hvar, Hname. Qed.

Lemma string_length_append (s1 s2 : string) :
  String.length (s1 +:+ s2) = String.length s1 + String.length s2.
Proof. induction s1 as [|a s1 IH]; simpl; [done | by rewrite IH]. Qed.

(** The name under which a candidate is imported is never the candidate's
    own name. *)
Lemma dot_join_ne (package module_name : string) :
  dot_join package module_name ≠ module_name.
Proof.
  intros Heq. apply (f_equal String.length) in Heq.
  unfold dot_join in Heq. rewrite !string_length_append in Heq.
  simpl in Heq. lia.
Qed.

(** As the import system sets [module.__name__] to the dotted path, a
    module whose only top-level name is the candidate's own name is
    treated as exporting nothing, whatever that name is bound to. *)
Lemma cl_classes_of_same_named_only (package module_name : string)
    (module : PyModule) (v : PyVal) :
  mod_name module = dot_join package module_name →
  mod_globals module = {[ module_name := v ]} →
  module_name ≠ standard_var →
  cl_classes_of module_name module = Ok [].
Proof.
  intros Hname Hglobals Hvar. apply cl_classes_of_no_export.
  - rewrite Hglobals. by apply lookup_singleton_ne.
  - rewrite Hglobals, Hname. apply lookup_singleton_ne.
    intros Heq. by apply (dot_join_ne package module_name).
Qed.

(** A single class under the marker is checked: one that does not derive
    from [Indexer] is refused with the error that names the candidate. *)
Lemma cl_classes_of_marker_plain_class (module_name : string)
    (module : PyModule) (c : PyClass) :
  mod_globals module !! standard_var = Some (VClass c) →
  issubclass (VClass c) Indexer_class = Ok false →
  ∃ e, cl_classes_of module_name module = Raise e
       ∧ PluginExportError module_name e.
Proof.
  intros Hvar Hsub. unfold cl_classes_of. rewrite Hvar. simpl in *.
  injection Hsub as ->. simpl. eexists. split; [done | by eexists].
Qed.

(** *** The registry *)

Lemma register_classes_classes (classes : list PyClass)
    (class_map : gmap string PyVal) :
  register_classes (VClass <$> classes) class_map
  = Ok (register_all class_map classes).
Proof.
  revert class_map.
  induction classes as [|c classes IH]; intros class_map; simpl; [done|].
  apply IH.
Qed.

(** A name is bound to the last class registered under it. *)
Lemma register_all_lookup (classes : list PyClass)
    (class_map : gmap string PyVal) (name : string) :
  register_all class_map classes !! name =
    match last (filter (λ c, cls_name c = name) classes) with
    | Some c => Some (VClass c)
    | None => class_map !! name
    end.
Proof.
  revert class_map.
  induction classes as [|c classes IH]; intros class_map; [done|].
  unfold register_all in *. simpl. rewrite IH.
  destruct (decide (cls_name c = name)) as [Heq|Hne].
  - rewrite filter_cons_True, last_cons by done.
    destruct (last _); [done|]. by rewrite <- Heq, lookup_insert_eq.
  - rewrite filter_cons_False by done.
    destruct (last _); [done|]. by rewrite lookup_insert_ne.
Qed.

Lemma get_indexers_loop_exported (env : DiscoveryEnv) (files : list string)
    (exported : list (list PyClass)) (class_map : gmap string PyVal) :
  Forall2 (λ module_file classes,
             entry_classes env module_file = Ok (VClass <$> classes))
          files exported →
  get_indexers_loop env files class_map
  = Ok (register_all class_map (concat exported)).
Proof.
  intros Hall. revert class_map.
  induction Hall as [|f classes files exported Hf _ IH]; intros class_map;
    simpl; [done|].
  rewrite Hf. simpl. rewrite register_classes_classes. simpl.
  rewrite IH. unfold register_all. by rewrite foldl_app.
Qed.

(** C8: when the entries of the plugin directory export the class lists
    [exported] (in listing order), discovery returns a registry in which
    every name is bound to the last exported class of that name, and to
    nothing when no exported class has it: each exported type sits under
    its own class name, and of two types with one name the one discovered
    later replaces the earlier without any error. *)
Theorem get_indexers_registers_by_class_name (env : DiscoveryEnv)
    (exported : list (list PyClass)) :
  Forall2 (λ module_file classes,
             entry_classes env module_file = Ok (VClass <$> classes))
          (listdir env) exported →
  ∃ class_map,
    get_indexers env = Ok class_map
    ∧ ∀ name,
        class_map !! name =
          VClass <$> last (filter (λ c, cls_name c = name) (concat exported)).
Proof.
  intros Hall. exists (register_all ∅ (concat exported)). split.
  - by apply get_indexers_loop_exported.
  - intros name. rewrite register_all_lookup.
    by destruct (last _).
Qed.

(** *** What a marker contributes *)

Lemma entry_classes_marker_sequence (env : DiscoveryEnv) (module_file : string)
    (module : PyModule) (marker : PyVal) (items : list PyVal) :
  file_re_match module_file = true →
  import_module env (dot_join (pkg_name env) (fst (splitext module_file)))
    = Ok module →
  mod_globals module !! standard_var = Some marker →
  as_tuple_or_list marker = Some items →
  entry_classes env module_file = Ok items.
Proof.
  intros Hmatch Himport Hvar Hseq. unfold entry_classes, cl_classes_of.
  rewrite Hmatch, Himport. simpl. by rewrite Hvar, Hseq.
Qed.

(** ** Discovery on concrete plugin directories *)

Example file_re_match_samples :
  file_re_match "svm.py" = true ∧ file_re_match "svm.pyc" = true
  ∧ file_re_match "colordescriptor" = true ∧ file_re_match "README.txt" = true
  ∧ file_re_match "__init__.py" = false ∧ file_re_match "2nn.py" = false
  ∧ file_re_match ".hidden" = false ∧ file_re_match "" = false
  ∧ file_re_match ("svm" +:+ nl) = true
  ∧ file_re_match ("s" +:+ nl +:+ "vm") = false.
Proof. by vm_compute. Qed.

Example splitext_samples :
  splitext "svm.py" = ("svm", ".py") ∧ splitext "colordescriptor" = ("colordescriptor", "")
  ∧ splitext "a.b.py" = ("a.b", ".py") ∧ splitext ".hidden" = (".hidden", "")
  ∧ splitext "pkg.d/mod" = ("pkg.d/mod", "").
Proof. by vm_compute. Qed.

Example get_indexers_single_list_marker :
  get_indexers (plugin_dir ["__init__.py"; "svm.py"] [svm_module])
  = Ok {[ "TypeA" := VClass TypeA; "TypeB" := VClass TypeB ]}.
Proof. reflexivity. Qed.

Example get_indexers_import_failure :
  get_indexers (plugin_dir ["svm.py"; "README.txt"] [svm_module])
  = Raise (ImportError "SMQTK.Indexers.README").
Proof. reflexivity. Qed.

Lemma get_indexers_registers_by_class_name_witness :
  Forall2 (λ module_file classes,
             entry_classes
               (plugin_dir ["__init__.py"; "svm.py"; "knn.py"]
                           [svm_module; knn_module]) module_file
             = Ok (VClass <$> classes))
          ["__init__.py"; "svm.py"; "knn.py"]
          [[]; [TypeA; TypeB]; [TypeB_knn]]
  ∧ ∃ class_map,
      get_indexers (plugin_dir ["__init__.py"; "svm.py"; "knn.py"]
                               [svm_module; knn_module]) = Ok class_map
      ∧ class_map !! "TypeA" = Some (VClass TypeA)
      ∧ class_map !! "TypeB" = Some (VClass TypeB_knn)
      ∧ class_map !! "Indexer" = None.
Proof.
  assert (Hexported :
    Forall2 (λ module_file classes,
               entry_classes
                 (plugin_dir ["__init__.py"; "svm.py"; "knn.py"]
                             [svm_module; knn_module]) module_file
               = Ok (VClass <$> classes))
            ["__init__.py"; "svm.py"; "knn.py"]
            [[]; [TypeA; TypeB]; [TypeB_knn]])
    by (repeat constructor).
  split; [exact Hexported|].
  destruct (get_indexers_registers_by_class_name
              (plugin_dir ["__init__.py"; "svm.py"; "knn.py"]
                          [svm_module; knn_module])
              [[]; [TypeA; TypeB]; [TypeB_knn]] Hexported)
    as (class_map & Hrun & Hlookup).
  exists class_map. split; [exact Hrun|].
  split_and!; rewrite Hlookup; reflexivity.
Defined.

(** C1 (defect in the code): a candidate that has neither the
    [INDEXER_CLASS] marker nor a symbol named after itself does not make
    discovery fail.  [utils.py] matches, is imported, binds neither
    [INDEXER_CLASS] nor [utils] nor its dotted name, and [get_indexers]
    returns normally with nothing registered for it. *)
Theorem get_indexers_accepts_module_without_export :
  file_re_match "utils.py" = true
  ∧ import_module (plugin_dir ["__init__.py"; "utils.py"] [utils_module])
      (dot_join "SMQTK.Indexers" (fst (splitext "utils.py")))
    = Ok utils_module
  ∧ mod_globals utils_module !! standard_var = None
  ∧ mod_globals utils_module !! "utils" = None
  ∧ mod_globals utils_module !! mod_name utils_module = None
  ∧ get_indexers (plugin_dir ["__init__.py"; "utils.py"] [utils_module])
    = Ok ∅.
Proof. split_and!; reflexivity. Qed.

(** C2 (defect in the code): the members of a list held by
    [INDEXER_CLASS] are not checked.  [Helper] is not a subclass of
    [Indexer]; exported on its own it is refused with the [RuntimeError],
    exported inside a list it is registered under its name. *)
Theorem get_indexers_registers_unvalidated_list_member :
  issubclass (VClass Helper) Indexer_class = Ok false
  ∧ get_indexers (plugin_dir ["__init__.py"; "bundle.py"] [bundle_list_module])
    = Ok {[ "Helper" := VClass Helper ]}
  ∧ get_indexers (plugin_dir ["__init__.py"; "bundle.py"]
                             [bundle_single_module])
    = Raise (RuntimeError
               ["[%s] %s variable not set to a valid value."; "bundle"]).
Proof. split_and!; reflexivity. Qed.

(** C3 (defect in the code): an entry whose name starts with a digit is
    not a candidate.  The same well-formed plugin is discovered as
    [nn2.py] and passed over as [2nn.py], without an import and without
    an error. *)
Theorem get_indexers_skips_digit_named_module :
  file_re_match "2nn.py" = false
  ∧ get_indexers (plugin_dir ["__init__.py"; "2nn.py"]
                             [nn_module "SMQTK.Indexers.2nn"])
    = Ok ∅
  ∧ get_indexers (plugin_dir ["__init__.py"; "nn2.py"]
                             [nn_module "SMQTK.Indexers.nn2"])
    = Ok {[ "TwoNN" := VClass (TwoNN "SMQTK.Indexers.nn2") ]}.
Proof. split_and!; reflexivity. Qed.

(** C7 (defect in the code): the symbol named after the module is looked
    up under [module.__name__], the dotted import path, and so is never
    found under the candidate's own name.  [foo.py] has no marker and
    binds [foo] to a class that is not an indexer; discovery neither
    raises nor registers anything.  The [RuntimeError] of that branch is
    reached only by a binding under the dotted name itself. *)
Theorem get_indexers_misses_same_named_symbol :
  fst (splitext "foo.py") = "foo"
  ∧ mod_name foo_module = dot_join "SMQTK.Indexers" "foo"
  ∧ mod_globals foo_module !! standard_var = None
  ∧ mod_globals foo_module !! "foo" = Some (VClass foo_class)
  ∧ issubclass (VClass foo_class) Indexer_class = Ok false
  ∧ get_indexers (plugin_dir ["__init__.py"; "foo.py"] [foo_module]) = Ok ∅
  ∧ get_indexers
      (plugin_dir ["__init__.py"; "foo.py"]
         [{| mod_name := "SMQTK.Indexers.foo";
             mod_globals := {[ "SMQTK.Indexers.foo" := VClass foo_class ]} |}])
    = Raise (RuntimeError
               ["[%s] Failed to find valid class by module name"; "foo"]).
Proof. split_and!; reflexivity. Qed.

(** * Further properties *)

(** ** Discovery: outcomes *)

Lemma elem_of_concat {A} (x : A) (ls : list (list A)) :
  x ∈ concat ls ↔ ∃ l, x ∈ l ∧ l ∈ ls.
Proof.
  induction ls as [|l0 ls IH]; simpl.
  - split; [by intros ?%elem_of_nil | by intros (l & _ & ?%elem_of_nil)].
  - rewrite elem_of_app, IH. split.
    + intros [Hx | (l & Hx & Hl)].
      * exists l0. split; [done | by left].
      * exists l. split; [done | by right].
    + intros (l & Hx & [-> | Hl]%elem_of_cons); [by left|].
      right. by exists l.
Qed.

Lemma register_classes_Ok_inv (items : list PyVal)
    (class_map registry : gmap string PyVal) :
  register_classes items class_map = Ok registry →
  ∃ classes, items = VClass <$> classes
             ∧ registry = register_all class_map classes.
Proof.
  revert class_map.
  induction items as [|v items IH]; intros class_map; simpl.
  - intros [= <-]. by exists [].
  - destruct v as [| | |c| |]; simpl; try discriminate.
    intros (classes & -> & ->)%IH. by exists (c :: classes).
Qed.

Lemma register_classes_Raise (items : list PyVal)
    (class_map : gmap string PyVal) (e : PyExc) :
  register_classes items class_map = Raise e →
  e = AttributeError "__name__".
Proof.
  revert class_map.
  induction items as [|v items IH]; intros class_map; simpl; [done|].
  destruct v; simpl; try (by intros [= <-]). apply IH.
Qed.

Lemma get_indexers_loop_Ok_inv (env : DiscoveryEnv) (files : list string)
    (class_map registry : gmap string PyVal) :
  get_indexers_loop env files class_map = Ok registry →
  ∃ exported,
    Forall2 (λ module_file classes,
               entry_classes env module_file = Ok (VClass <$> classes))
            files exported
    ∧ registry = register_all class_map (concat exported).
Proof.
  revert class_map.
  induction files as [|f files IH]; intros class_map; simpl.
  - intros [= <-]. by exists [].
  - destruct (entry_classes env f) as [items|e] eqn:Hentry; simpl;
      [|discriminate].
    destruct (register_classes items class_map) as [class_map'|e] eqn:Hreg;
      simpl; [|discriminate].
    apply register_classes_Ok_inv in Hreg as (classes & -> & ->).
    intros (exported & Hall & ->)%IH.
    exists (classes :: exported). split; [by constructor|].
    unfold register_all. simpl. by rewrite foldl_app.
Qed.

Lemma get_indexers_loop_Forall_Ok (env : DiscoveryEnv) (files : list string)
    (class_map : gmap string PyVal) :
  Forall (λ module_file,
            ∃ classes, entry_classes env module_file = Ok (VClass <$> classes))
         files →
  is_Ok (get_indexers_loop env files class_map).
Proof.
  intros Hall. revert class_map.
  induction Hall as [|f files [classes Hf] _ IH]; intros class_map; simpl.
  - by eexists.
  - rewrite Hf. simpl. rewrite register_classes_classes. simpl. apply IH.
Qed.

(** In these values, the ones that have a [__name__] are the class
    objects. *)
Lemma getattr_name_Ok_classes (items : list PyVal) :
  Forall (λ v, is_Ok (getattr_name v)) items ↔
  ∃ classes, items = VClass <$> classes.
Proof.
  split.
  - induction 1 as [|v items [name Hname] _ (classes & ->)]; [by exists []|].
    destruct v as [| | |c| |]; try discriminate. by exists (c :: classes).
  - intros (classes & ->). induction classes as [|c classes IH]; simpl;
      constructor; [by eexists | done].
Qed.

(** X1: discovery returns a registry exactly when, for every entry of the
    plugin directory, neither the import nor the export cascade raises
    and every exported value has a [__name__]. *)
Theorem get_indexers_all_or_nothing (env : DiscoveryEnv) :
  is_Ok (get_indexers env) ↔
  Forall (λ module_file,
            ∃ items, entry_classes env module_file = Ok items
                     ∧ Forall (λ v, is_Ok (getattr_name v)) items)
         (listdir env).
Proof.
  split.
  - intros [registry Hrun]. unfold get_indexers in Hrun.
    apply get_indexers_loop_Ok_inv in Hrun as (exported & Hall & _).
    induction Hall as [|f classes files exported Hf _ IH];
      constructor; [|done].
    eexists. split; [done|]. apply getattr_name_Ok_classes. by eexists.
  - intros Hall. apply get_indexers_loop_Forall_Ok.
    eapply Forall_impl; [exact Hall|]. simpl.
    intros f (items & Hf & (classes & ->)%getattr_name_Ok_classes).
    by exists classes.
Qed.

(** X2: in a returned registry every value is stored under its own
    [__name__], and is among the values exported by some candidate of
    the plugin directory. *)
Theorem get_indexers_registry_sound (env : DiscoveryEnv)
    (registry : gmap string PyVal) (key : string) (v : PyVal) :
  get_indexers env = Ok registry →
  registry !! key = Some v →
  getattr_name v = Ok key
  ∧ ∃ module_file items,
      module_file ∈ listdir env
      ∧ file_re_match module_file = true
      ∧ entry_classes env module_file = Ok items
      ∧ v ∈ items.
Proof.
  unfold get_indexers.
  intros (exported & Hall & ->)%get_indexers_loop_Ok_inv.
  rewrite register_all_lookup.
  destruct (last _) as [c|] eqn:Hlast; [|by rewrite lookup_empty].
  intros [= <-].
  apply last_Some_elem_of, list_elem_of_filter in Hlast as [Hname Hin].
  split; [by rewrite <- Hname|].
  apply elem_of_concat in Hin as (classes & Hc & Hclasses).
  apply list_elem_of_lookup in Hclasses as [i Hi].
  destruct (Forall2_lookup_r _ _ _ _ _ Hall Hi) as (f & Hf & Hentry).
  exists f, (VClass <$> classes). split_and!.
  - by eapply list_elem_of_lookup_2.
  - destruct (file_re_match f) eqn:Hmatch; [done|].
    rewrite entry_classes_not_candidate in Hentry by done.
    destruct classes; [by apply elem_of_nil in Hc | discriminate].
  - done.
  - by apply list_elem_of_fmap_2.
Qed.

Lemma get_indexers_loop_with_listdir (env : DiscoveryEnv)
    (listing files : list string) (class_map : gmap string PyVal) :
  get_indexers_loop (with_listdir env listing) files class_map
  = get_indexers_loop env files class_map.
Proof.
  revert class_map.
  induction files as [|f files IH]; intros class_map; simpl; [done|].
  change (entry_classes (with_listdir env listing) f)
    with (entry_classes env f).
  destruct (entry_classes env f) as [items|e]; simpl; [|done].
  destruct (register_classes items class_map); simpl; [apply IH | done].
Qed.

Lemma cl_classes_of_Raise (module_name : string) (module : PyModule)
    (e : PyExc) :
  cl_classes_of module_name module = Raise e →
  e = TypeError ∨ PluginExportError module_name e.
Proof.
  unfold cl_classes_of.
  destruct (mod_globals module !! standard_var) as [v|].
  - destruct (as_tuple_or_list v); [discriminate|].
    destruct v; simpl; try (intros [= <-]; by left).
    destruct (_ || _); simpl; [discriminate|].
    intros [= <-]. right. by eexists.
  - destruct (mod_globals module !! mod_name module) as [v|]; [|discriminate].
    destruct v; simpl; try (intros [= <-]; by left).
    destruct (_ || _); simpl; [discriminate|].
    intros [= <-]. right. by eexists.
Qed.

Lemma entry_classes_Raise (env : DiscoveryEnv) (module_file : string)
    (e : PyExc) :
  entry_classes env module_file = Raise e →
  file_re_match module_file = true
  ∧ (import_module env (module_path_of env module_file) = Raise e
     ∨ e = TypeError
     ∨ PluginExportError (fst (splitext module_file)) e).
Proof.
  unfold entry_classes, module_path_of.
  destruct (file_re_match module_file); [|discriminate].
  destruct (import_module env _) as [module|e'] eqn:Himport; simpl.
  - intros Hcl%cl_classes_of_Raise. split; [done|]. by right.
  - intros [= <-]. split; [done|]. by left.
Qed.

(** X3: the only exceptions discovery raises are: what the import of a
    candidate raised, the [RuntimeError] that names a candidate, the
    [TypeError] of [issubclass], and the [AttributeError] for a member of
    an exported list that has no [__name__]. *)
Theorem get_indexers_exceptions (env : DiscoveryEnv) (e : PyExc) :
  get_indexers env = Raise e →
  (∃ module_file,
     module_file ∈ listdir env ∧ file_re_match module_file = true
     ∧ import_module env (module_path_of env module_file) = Raise e)
  ∨ (∃ module_file,
       module_file ∈ listdir env ∧ file_re_match module_file = true
       ∧ PluginExportError (fst (splitext module_file)) e)
  ∨ e = TypeError
  ∨ e = AttributeError "__name__".
Proof.
  unfold get_indexers. generalize (∅ : gmap string PyVal).
  induction (listdir env) as [|f files IH]; intros class_map; simpl;
    [discriminate|].
  destruct (entry_classes env f) as [items|e'] eqn:Hentry; simpl.
  - destruct (register_classes items class_map) as [class_map'|e'] eqn:Hreg;
      simpl.
    + intros Hrest. destruct (IH _ Hrest) as [(g & ? & ?)|[(g & ? & ?)|?]].
      * left. exists g. split; [by right | done].
      * right; left. exists g. split; [by right | done].
      * by do 2 right.
    + intros [= <-]. apply register_classes_Raise in Hreg. by do 3 right.
  - intros [= <-].
    apply entry_classes_Raise in Hentry as (Hmatch & [?|[?|?]]).
    + left. exists f. split; [by left | done].
    + do 2 right. by left.
    + right; left. exists f. split; [by left | done].
Qed.

Lemma register_classes_Raise_any_map (items : list PyVal)
    (class_map class_map' : gmap string PyVal) (e : PyExc) :
  register_classes items class_map = Raise e →
  register_classes items class_map' = Raise e.
Proof.
  revert class_map class_map'.
  induction items as [|v items IH]; intros class_map class_map'; simpl;
    [done|].
  destruct (getattr_name v); simpl; [apply IH | done].
Qed.

(** X4: discovery fails fast.  When the entries before [module_file] are
    processed without an exception and [module_file], taken alone, makes
    discovery raise [e], then discovery raises [e], whatever comes after
    it in the listing. *)
Theorem get_indexers_first_failure (env : DiscoveryEnv)
    (before after : list string) (module_file : string)
    (registry : gmap string PyVal) (e : PyExc) :
  listdir env = (before ++ module_file :: after)%list →
  get_indexers (with_listdir env before) = Ok registry →
  get_indexers (with_listdir env [module_file]) = Raise e →
  get_indexers env = Raise e.
Proof.
  unfold get_indexers. simpl. intros -> Hbefore.
  rewrite get_indexers_loop_with_listdir in Hbefore.
  rewrite get_indexers_loop_app, Hbefore.
  change (entry_classes (with_listdir env [module_file]) module_file)
    with (entry_classes env module_file).
  simpl. destruct (entry_classes env module_file) as [items|e']; simpl;
    [|done].
  destruct (register_classes items ∅) as [m|e'] eqn:Hreg; simpl;
    [discriminate|].
  intros [= ->].
  by rewrite (register_classes_Raise_any_map _ _ registry _ Hreg).
Qed.

(** X5: only candidates are imported: two import systems that agree on
    the module paths of the entries matching [file_re] give the same
    outcome of discovery. *)
Theorem get_indexers_imports_candidates_only (env env' : DiscoveryEnv) :
  pkg_name env' = pkg_name env →
  listdir env' = listdir env →
  (∀ module_file,
     module_file ∈ listdir env → file_re_match module_file = true →
     import_module env' (module_path_of env module_file)
     = import_module env (module_path_of env module_file)) →
  get_indexers env' = get_indexers env.
Proof.
  unfold get_indexers. intros Hpkg -> Himport.
  generalize (∅ : gmap string PyVal).
  induction (listdir env) as [|f files IH]; intros class_map; simpl; [done|].
  assert (entry_classes env' f = entry_classes env f) as ->.
  { unfold entry_classes. destruct (file_re_match f) eqn:Hmatch; [|done].
    rewrite Hpkg. fold (module_path_of env f).
    rewrite Himport; [done | by left | done]. }
  destruct (entry_classes env f) as [items|e]; simpl; [|done].
  destruct (register_classes items class_map); simpl; [|done].
  apply IH. intros g Hg. apply Himport. by right.
Qed.

(** X6: entries that do not match [file_re] have no influence at all:
    discovery over a listing is discovery over its candidates. *)
Theorem get_indexers_candidates_only (env : DiscoveryEnv) :
  get_indexers env =
  get_indexers
    (with_listdir env (filter (λ f, file_re_match f = true) (listdir env))).
Proof.
  unfold get_indexers. simpl. rewrite get_indexers_loop_with_listdir.
  generalize (∅ : gmap string PyVal).
  induction (listdir env) as [|f files IH]; intros class_map; [done|].
  destruct (file_re_match f) eqn:Hmatch.
  - rewrite filter_cons_True by done. simpl.
    destruct (entry_classes env f) as [items|e]; simpl; [|done].
    destruct (register_classes items class_map); simpl; [apply IH | done].
  - rewrite filter_cons_False by (by rewrite Hmatch).
    simpl. rewrite entry_classes_not_candidate by done. simpl. apply IH.
Qed.

(** X7: a directory entry is a candidate exactly when its name is an
    ASCII letter followed by characters other than a newline, with at most
    one newline after them; nothing else about the name matters, its
    extension included. *)
Theorem file_re_candidates (module_file : string) :
  file_re_match module_file = true ↔
  ∃ c body,
    is_ascii_letter c = true ∧ newline_free body = true
    ∧ (module_file = String c body ∨ module_file = String c (body +:+ nl)).
Proof.
  rewrite file_re_match_spec. split.
  - intros (c & rest & -> & Hc & Hrest).
    apply single_line_split in Hrest as (body & Hfree & Hrest).
    exists c, body. destruct Hrest as [-> | ->]; auto.
  - intros (c & body & Hc & Hfree & Hname).
    assert (∀ tail, tail = "" ∨ tail = nl → single_line (body +:+ tail) = true)
      as Hline.
    { intros tail Htail. rewrite single_line_append by done.
      by destruct Htail as [-> | ->]. }
    destruct Hname as [-> | ->]; eexists _, _; (split; [done|]);
      (split; [done|]).
    + rewrite <- (append_empty_r body). apply Hline. by left.
    + apply Hline. by right.
Qed.

(** ** Discovery: the listing order and repeated entries *)

Lemma Forall2_entries_Permutation {A B} (P : A → list B → Prop)
    (files files' : list A) (exported : list (list B)) :
  files ≡ₚ files' → Forall2 P files exported →
  ∃ exported', Forall2 P files' exported'
               ∧ concat exported ≡ₚ concat exported'.
Proof.
  intros Hperm. revert exported.
  induction Hperm as [|x l l' _ IH|x y l|l l' l'' _ IH1 _ IH2];
    intros exported Hall.
  - apply Forall2_nil_inv_l in Hall as ->. by exists [].
  - apply Forall2_cons_inv_l in Hall as (c & ex & Hx & Hl & ->).
    destruct (IH _ Hl) as (ex' & Hl' & Hex).
    exists (c :: ex'). split; [by constructor|]. simpl. by rewrite Hex.
  - apply Forall2_cons_inv_l in Hall as (cy & ex1 & Hy & Hl & ->).
    apply Forall2_cons_inv_l in Hl as (cx & ex & Hx & Hl & ->).
    exists (cx :: cy :: ex). split; [by repeat constructor|].
    simpl. apply Permutation_app_swap_app.
  - destruct (IH1 _ Hall) as (ex' & Hall' & Hex).
    destruct (IH2 _ Hall') as (ex'' & Hall'' & Hex').
    exists ex''. split; [done|]. by rewrite Hex.
Qed.

Lemma filter_name_unique (classes : list PyClass) (c : PyClass) :
  NoDup (cls_name <$> classes) → c ∈ classes →
  filter (λ c', cls_name c' = cls_name c) classes = [c].
Proof.
  induction classes as [|a classes IH]; [by intros _ ?%elem_of_nil|].
  rewrite fmap_cons, NoDup_cons. intros [Hfresh Hnodup] Hin.
  assert (∀ x, x ∈ classes → cls_name x ≠ cls_name a) as Hother.
  { intros x Hx Heq. apply Hfresh. rewrite <- Heq.
    by apply list_elem_of_fmap_2. }
  apply elem_of_cons in Hin as [-> | Hin].
  - rewrite filter_cons_True by done. f_equal.
    apply elem_of_nil_inv. intros x [Hx1 Hx2]%list_elem_of_filter.
    by apply (Hother x).
  - rewrite filter_cons_False; [by apply IH|].
    intros Heq. by apply (Hother c).
Qed.

Lemma last_filter_name_unique (classes : list PyClass) (name : string)
    (c : PyClass) :
  NoDup (cls_name <$> classes) →
  last (filter (λ c', cls_name c' = name) classes) = Some c
  ↔ c ∈ classes ∧ cls_name c = name.
Proof.
  intros Hnodup. split.
  - intros [Hname Hin]%last_Some_elem_of%list_elem_of_filter. done.
  - intros [Hin <-]. by rewrite filter_name_unique.
Qed.

(** X8: when no two exported classes share a name, the order in which
    [os.listdir] returns the entries does not matter: every permutation
    of the listing gives the same registry. *)
Theorem get_indexers_order_irrelevant (env : DiscoveryEnv)
    (files files' : list string) (exported : list (list PyClass)) :
  Forall2 (λ module_file classes,
             entry_classes env module_file = Ok (VClass <$> classes))
          files exported →
  NoDup (cls_name <$> concat exported) →
  files ≡ₚ files' →
  get_indexers (with_listdir env files')
  = get_indexers (with_listdir env files).
Proof.
  intros Hall Hnodup Hperm.
  destruct (Forall2_entries_Permutation _ _ _ _ Hperm Hall)
    as (exported' & Hall' & Hex).
  unfold get_indexers. simpl. rewrite !get_indexers_loop_with_listdir.
  rewrite (get_indexers_loop_exported _ _ _ _ Hall),
          (get_indexers_loop_exported _ _ _ _ Hall').
  f_equal. apply map_eq. intros name. rewrite !register_all_lookup.
  assert (NoDup (cls_name <$> concat exported')) as Hnodup'
    by (by rewrite <- Hex).
  assert (last (filter (λ c, cls_name c = name) (concat exported'))
          = last (filter (λ c, cls_name c = name) (concat exported))) as ->;
    [|done].
  apply option_eq. intros c.
  rewrite !last_filter_name_unique by done. by rewrite Hex.
Qed.

Lemma entry_classes_same_module_name (env : DiscoveryEnv)
    (file1 file2 : string) :
  fst (splitext file1) = fst (splitext file2) →
  file_re_match file1 = true → file_re_match file2 = true →
  entry_classes env file1 = entry_classes env file2.
Proof.
  intros Hname Hmatch1 Hmatch2. unfold entry_classes.
  by rewrite Hmatch1, Hmatch2, Hname.
Qed.

Lemma VClass_fmap_inj (classes1 classes2 : list PyClass) :
  VClass <$> classes1 = VClass <$> classes2 → classes1 = classes2.
Proof.
  revert classes2.
  induction classes1 as [|c classes1 IH]; intros [|c' classes2];
    simpl; try discriminate; [done|].
  intros [= -> Hrest]. f_equal. by apply IH.
Qed.

(** Registering a run of classes a second time, later, makes the first
    time redundant. *)
Lemma register_all_repeated (class_map : gmap string PyVal)
    (before classes between after : list PyClass) :
  register_all class_map (before ++ classes ++ between ++ classes ++ after)
  = register_all class_map (before ++ between ++ classes ++ after).
Proof.
  apply map_eq. intros name. rewrite !register_all_lookup.
  rewrite !filter_app, !last_app.
  by repeat destruct (last _).
Qed.

(** X9: an entry whose module name is that of a later entry (as a
    byte-compiled [svm.pyc] next to [svm.py]) is redundant: discovery
    returns a registry with it exactly when it does without it, and then
    the same one. *)
Theorem get_indexers_repeated_module (env : DiscoveryEnv)
    (before between after : list string) (file1 file2 : string)
    (registry : gmap string PyVal) :
  fst (splitext file1) = fst (splitext file2) →
  file_re_match file1 = true → file_re_match file2 = true →
  get_indexers
    (with_listdir env (before ++ file1 :: between ++ file2 :: after))
    = Ok registry
  ↔ get_indexers (with_listdir env (before ++ between ++ file2 :: after))
    = Ok registry.
Proof.
  intros Hname Hmatch1 Hmatch2.
  pose proof (entry_classes_same_module_name env _ _ Hname Hmatch1 Hmatch2)
    as Hsame.
  unfold get_indexers. simpl. rewrite !get_indexers_loop_with_listdir.
  split.
  - intros (exported & Hall & ->)%get_indexers_loop_Ok_inv.
    apply Forall2_app_inv_l in Hall as (eb & rest & Hb & Hrest & ->).
    apply Forall2_cons_inv_l in Hrest as (c1 & rest' & H1 & Hrest & ->).
    apply Forall2_app_inv_l in Hrest as (em & rest'' & Hm & Hrest & ->).
    apply Forall2_cons_inv_l in Hrest as (c2 & ea & H2 & Ha & ->).
    rewrite Hsame, H2 in H1. injection H1 as H1.
    apply VClass_fmap_inj in H1 as <-.
    rewrite (get_indexers_loop_exported env _ (eb ++ em ++ c2 :: ea)).
    + f_equal. rewrite !concat_app. simpl. rewrite !concat_app. simpl.
      symmetry. apply register_all_repeated.
    + apply Forall2_app; [done|]. apply Forall2_app; [done|].
      by constructor.
  - intros (exported & Hall & ->)%get_indexers_loop_Ok_inv.
    apply Forall2_app_inv_l in Hall as (eb & rest & Hb & Hrest & ->).
    apply Forall2_app_inv_l in Hrest as (em & rest'' & Hm & Hrest & ->).
    apply Forall2_cons_inv_l in Hrest as (c2 & ea & H2 & Ha & ->).
    rewrite (get_indexers_loop_exported env _ (eb ++ c2 :: em ++ c2 :: ea)).
    + f_equal. rewrite !concat_app. simpl. rewrite !concat_app. simpl.
      apply register_all_repeated.
    + apply Forall2_app; [done|]. constructor; [by rewrite Hsame|].
      apply Forall2_app; [done|]. by constructor.
Qed.

(** ** The base class: outcomes and effects *)

Section IndexerFurther.
Context {State : Type} {impl : IndexerImpl State}.
Context {Feature : Type}.
Implicit Types (self : Indexer State) (fs : FS).

(** X10: the outcome of [generate_model] is decided by [has_model()] and
    the size of the feature map: it returns normally only when there is
    no model and the map has an entry, and then without touching the file
    system; it raises the empty-input [ValueError] only when there is no
    model and the map is empty, again without touching the file system;
    with a model it raises the model-already-exists [RuntimeError], or
    else the exception that [os.makedirs] raised on the missing data
    directory. *)
Theorem generate_model_outcomes self (feature_map : gmap Z Feature)
    parallel fs :
  match generate_model self feature_map parallel fs with
  | (Ok _, fs') =>
      has_model self fs = false ∧ size feature_map ≠ 0 ∧ fs' = fs
  | (Raise e, fs') =>
      (has_model self fs = false ∧ size feature_map = 0
       ∧ EmptyInputError e ∧ fs' = fs)
      ∨ (has_model self fs = true
         ∧ (ModelAlreadyExistsError e
            ∨ (os_path_isdir fs (_data_dir self) = false
               ∧ os_makedirs fs (_data_dir self) = Raise e)))
  end.
Proof.
  destruct (has_model self fs) eqn:Hm.
  - destruct (generate_model_has_model_cases self feature_map parallel fs Hm)
      as [(_ & ->) | [(_ & fs' & _ & ->) | (Hd & e & Hmk & ->)]].
    + right. split; [done|]. left. by eexists.
    + right. split; [done|]. left. by eexists.
    + right. split; [done|]. by right.
  - unfold generate_model, has_model_call, mbind, M_bind. simpl.
    rewrite Hm. case_bool_decide as Hsize; simpl.
    + left. done.
    + done.
Qed.

Lemma makedirs_keeps_entries (p : string) : keeps_entries (makedirs p).
Proof.
  intros fs fs' r. unfold makedirs.
  destruct (os_makedirs fs p) as [fs''|e] eqn:Hmk; intros [= <- <-].
  - split.
    + intros q n. by apply (os_makedirs_preserves _ _ _ _ _ Hmk).
    + intros q Hq. destruct (fs'' !! q) as [n|] eqn:Hq'; [|by left].
      right. destruct (os_makedirs_changes _ _ _ q Hmk) as [Hdir _];
        congruence.
  - split; [done | by left].
Qed.

Lemma check_then_create_keeps_entries (access : M string) (p : string) :
  (∀ fs, access fs =
     if os_path_isdir fs p then (Ok p, fs)
     else match os_makedirs fs p with
          | Ok fs' => (Ok p, fs')
          | Raise e => (Raise e, fs)
          end) →
  keeps_entries access.
Proof.
  intros Heq fs fs' r. rewrite Heq.
  destruct (os_path_isdir fs p).
  - intros [= <- <-]. split; [done | by left].
  - pose proof (makedirs_keeps_entries p fs) as Hkeep. unfold makedirs in Hkeep.
    destruct (os_makedirs fs p) as [fs''|e]; intros [= <- <-];
      by eapply Hkeep.
Qed.

(** X11: no operation of the base class ever removes or replaces
    anything in the file system; the only thing any of them can add is a
    directory. *)
Theorem base_operations_keep_entries self (feature_map : gmap Z Feature)
    parallel pos_ids neg_ids :
  keeps_entries (data_dir self)
  ∧ keeps_entries (work_dir self)
  ∧ keeps_entries (generate_model self feature_map parallel)
  ∧ keeps_entries (extend_model self feature_map parallel)
  ∧ keeps_entries (rank_model self pos_ids neg_ids)
  ∧ keeps_entries (reset self).
Proof.
  assert (keeps_entries (data_dir self)) as Hdata
    by (apply (check_then_create_keeps_entries _ (_data_dir self));
        intros fs; apply data_dir_eq).
  split_and!.
  - done.
  - apply (check_then_create_keeps_entries _ (_work_dir self)).
    intros fs. apply work_dir_eq.
  - intros fs fs' r. destruct (has_model self fs) eqn:Hm.
    + rewrite (generate_model_has_model_eq _ _ _ _ Hm).
      destruct (data_dir self fs) as [[location|e] fs''] eqn:Hd;
        intros [= <- <-]; by eapply Hdata.
    + unfold generate_model, has_model_call, mbind, M_bind. simpl.
      rewrite Hm. case_bool_decide; simpl; intros [= <- <-];
        (split; [done | by left]).
  - intros fs fs' r.
    unfold extend_model, has_model_call, mbind, M_bind. simpl.
    destruct (has_model self fs); simpl; intros [= <- <-];
      (split; [done | by left]).
  - intros fs fs' r.
    unfold rank_model, has_model_call, mbind, M_bind. simpl.
    destruct (has_model self fs); simpl; intros [= <- <-];
      (split; [done | by left]).
  - intros fs fs' r.
    unfold reset, has_model_call, mbind, M_bind. simpl.
    destruct (has_model self fs); simpl; intros [= <- <-];
      (split; [done | by left]).
Qed.

(** X12: once the [data_dir] handle has been resolved, [generate_model]
    on an instance that has a model raises the model-already-exists
    [RuntimeError] with that path and changes nothing. *)
Theorem generate_model_after_data_dir self (feature_map : gmap Z Feature)
    parallel fs fs' location :
  data_dir self fs = (Ok location, fs') →
  has_model self fs' = true →
  generate_model self feature_map parallel fs'
  = (Raise (RuntimeError [model_exists_message location]), fs').
Proof.
  intros Hdir Hm.
  assert (location = _data_dir self ∧ os_path_isdir fs' (_data_dir self) = true)
    as [-> Hpresent].
  { rewrite data_dir_eq in Hdir.
    destruct (os_path_isdir fs (_data_dir self)) eqn:Hd.
    - by injection Hdir as <- <-.
    - destruct (os_makedirs fs (_data_dir self)) as [fs''|e] eqn:Hmk;
        [|discriminate].
      injection Hdir as <- <-. split; [done|].
      by apply (os_makedirs_isdir _ _ _ Hmk). }
  rewrite (generate_model_has_model_eq _ _ _ _ Hm), data_dir_eq.
  by rewrite Hpresent.
Qed.

End IndexerFurther.

(** ** The [name] property and the registry *)

(** X13: the registry can be addressed by [name].  When the class of an
    instance is among the exported classes and no class exported after it
    has the same name, discovery binds the instance's [name] to that
    class. *)
Theorem get_indexers_lookup_by_name {State : Type} `{!IndexerType State}
    (self : Indexer State) (env : DiscoveryEnv)
    (exported : list (list PyClass)) (earlier later : list PyClass) :
  Forall2 (λ module_file classes,
             entry_classes env module_file = Ok (VClass <$> classes))
          (listdir env) exported →
  concat exported = (earlier ++ indexer_class (State := State) :: later)%list →
  Forall (λ c, cls_name c ≠ name self) later →
  ∃ registry,
    get_indexers env = Ok registry
    ∧ registry !! name self = Some (VClass (indexer_class (State := State))).
Proof.
  intros Hall Hsplit Hlater. eexists. split.
  - by apply get_indexers_loop_exported.
  - rewrite register_all_lookup, Hsplit, filter_app.
    rewrite filter_cons_True by done.
    assert (filter (λ c, cls_name c = name self) later = []) as ->.
    { apply elem_of_nil_inv. intros c [Hname Hin]%list_elem_of_filter.
      rewrite Forall_forall in Hlater. by apply (Hlater c). }
    by rewrite last_snoc.
Qed.

(** ** [CreateIngest.main] *)

(** [main_setup] for the two supported types. *)
Lemma main_setup_supported (cfg : SmqtkConfig) (opts : Options)
    (type capitalized : string) :
  opt_type opts = Some type →
  (type = "image" ∧ capitalized = "Image")
  ∨ (type = "video" ∧ capitalized = "Video") →
  main_setup cfg opts =
    match ingest_subdir cfg capitalized with
    | Failed e => Failed e
    | Done subdir =>
        Done (match opt_d opts with
              | Some d =>
                  if bool_decide (d = "") then osp_join (DATA_DIR cfg) subdir
                  else d
              | None => osp_join (DATA_DIR cfg) subdir
              end,
              osp_join (WORK_DIR cfg) subdir)
    end.
Proof.
  intros Htype [[-> ->] | [-> ->]]; unfold main_setup; rewrite Htype.
  - rewrite bool_decide_eq_true_2 by (by left). simpl.
    change (String (upper "i") "mage") with "Image".
    destruct (ingest_subdir cfg "Image") as [subdir|e]; simpl.
    + destruct (opt_d opts) as [d|]; [|done]. by case_bool_decide.
    + destruct (opt_d opts) as [d|]; [|done]. by case_bool_decide.
  - rewrite bool_decide_eq_true_2 by (right; by left). simpl.
    change (String (upper "v") "ideo") with "Video".
    destruct (ingest_subdir cfg "Video") as [subdir|e]; simpl.
    + destruct (opt_d opts) as [d|]; [|done]. by case_bool_decide.
    + destruct (opt_d opts) as [d|]; [|done]. by case_bool_decide.
Qed.

Lemma main_setup_Failed (cfg : SmqtkConfig) (opts : Options) (e : MainExc) :
  main_setup cfg opts = Failed e ↔
  (((opt_type opts ∉ [Some "image"; Some "video"])
    ∧ e = invalid_type_error (opt_type opts))
   ∨ (opt_type opts = Some "image" ∧ ingest_subdir cfg "Image" = Failed e)
   ∨ (opt_type opts = Some "video" ∧ ingest_subdir cfg "Video" = Failed e)).
Proof.
  destruct (opt_type opts) as [type|] eqn:Htype.
  - destruct (decide (type = "image")) as [-> | Himage];
      [|destruct (decide (type = "video")) as [-> | Hvideo]].
    + rewrite (main_setup_supported cfg opts "image" "Image") by auto.
      split.
      * intros Hsetup. right; left. split; [done|].
        revert Hsetup.
        destruct (ingest_subdir cfg "Image"); [discriminate | by intros [= ->]].
      * intros [[Hno _] | [[_ ->] | [[=] _]]]; [|done].
        exfalso. apply Hno. by left.
    + rewrite (main_setup_supported cfg opts "video" "Video") by auto.
      split.
      * intros Hsetup. right; right. split; [done|].
        revert Hsetup.
        destruct (ingest_subdir cfg "Video"); [discriminate | by intros [= ->]].
      * intros [[Hno _] | [[[=] _] | [_ ->]]]; [|done].
        exfalso. apply Hno. right. by left.
    + assert (type ∉ ["image"; "video"]) as Hno.
      { by intros [-> | [-> | []%elem_of_nil]%elem_of_cons]%elem_of_cons. }
      unfold main_setup. rewrite Htype, bool_decide_eq_false_2 by done.
      simpl. split.
      * intros [= <-]. left. split; [|done].
        intros [[= ->] | [[= ->] | []%elem_of_nil]%elem_of_cons]%elem_of_cons;
          done.
      * intros [[_ ->] | [[[= ->] _] | [[= ->] _]]]; done.
  - unfold main_setup. rewrite Htype. split.
    + intros [= <-]. left. split; [|done].
      by intros [[=] | [[=] | []%elem_of_nil]%elem_of_cons]%elem_of_cons.
    + by intros [[_ ->] | [[[=] _] | [[=] _]]].
Qed.

(** X14: [main] stops before an ingest is made, with the world untouched
    and whatever the arguments, exactly in these cases: the type is not
    ['image'] or ['video'] (or not given), with the [RuntimeError] that
    shows it; or the configuration has no ingest directory for the
    capitalised type, with the [KeyError] -- and that also when a target
    directory is given by [-d]. *)
Theorem main_fails_before_ingest (cfg : SmqtkConfig) (opts : Options)
    (e : MainExc) :
  (∀ (W Ing : Type) (ops : IngestOps W Ing) (args : list string) (w : W),
     main cfg ops opts args w = (Failed e, w))
  ↔ (((opt_type opts ∉ [Some "image"; Some "video"])
      ∧ e = invalid_type_error (opt_type opts))
     ∨ (opt_type opts = Some "image" ∧ ingest_subdir cfg "Image" = Failed e)
     ∨ (opt_type opts = Some "video" ∧ ingest_subdir cfg "Video" = Failed e)).
Proof.
  rewrite <- main_setup_Failed. split.
  - intros Hall.
    specialize (Hall unit unit
      {| isfile := λ _ _, false; glob := λ _ _, [];
         DataIngest := λ _ _ w, (Ok tt, w);
         add_data_file := λ i _ w, (Ok i, w) |} [] tt).
    unfold main in Hall. simpl in Hall.
    destruct (main_setup cfg opts) as [[target_dir work_dir]|e'];
      [discriminate | congruence].
  - intros Hsetup W Ing ops args w. unfold main. by rewrite Hsetup.
Qed.

(** X15: arguments that are not files and that [glob.glob] expands to
    nothing are passed over without an error: when no argument is a file
    or matches anything, [main] returns with the ingest as it was
    constructed. *)
Theorem main_skips_unmatched_arguments {W Ing : Type} (cfg : SmqtkConfig)
    (ops : IngestOps W Ing) (opts : Options) (args : list string)
    (w w' : W) (target_dir work_dir : string) (ingest : Ing) :
  main_setup cfg opts = Done (target_dir, work_dir) →
  DataIngest ops target_dir work_dir w = (Ok ingest, w') →
  Forall (λ g, isfile ops w' g = false ∧ glob ops w' g = []) args →
  main cfg ops opts args w = (Done ingest, w').
Proof.
  intros Hsetup Hnew Hnone. unfold main. rewrite Hsetup, Hnew.
  induction Hnone as [|g args [Hfile Hglob] _ IH]; simpl; [done|].
  by rewrite Hfile, Hglob.
Qed.

Lemma add_args_app {W Ing : Type} (ops : IngestOps W Ing) (ingest : Ing)
    (args1 args2 : list string) (w : W) :
  add_args ops ingest (args1 ++ args2)%list w =
    match add_args ops ingest args1 w with
    | (Done ingest', w') => add_args ops ingest' args2 w'
    | (Failed e, w') => (Failed e, w')
    end.
Proof.
  revert ingest w.
  induction args1 as [|g args1 IH]; intros ingest w; simpl; [done|].
  destruct (add_paths ops ingest _ w) as [[ingest'|e] w']; [apply IH | done].
Qed.

(** X16: the arguments are worked off from left to right on one ingest:
    running [main] on [args1 ++ args2] is running it on [args1] and then
    working off [args2] on the ingest and the world this leaves; if the
    run on [args1] fails, that is the outcome and nothing of [args2] is
    looked at. *)
Theorem main_arguments_in_sequence {W Ing : Type} (cfg : SmqtkConfig)
    (ops : IngestOps W Ing) (opts : Options) (args1 args2 : list string)
    (w : W) :
  main cfg ops opts (args1 ++ args2)%list w =
    match main cfg ops opts args1 w with
    | (Done ingest, w') => add_args ops ingest args2 w'
    | (Failed e, w') => (Failed e, w')
    end.
Proof.
  unfold main.
  destruct (main_setup cfg opts) as [[target_dir work_dir]|e]; [|done].
  destruct (DataIngest ops target_dir work_dir w) as [[ingest|e] w'];
    [apply add_args_app | done].
Qed.

(** ** The further properties on concrete inputs *)

Lemma get_indexers_registry_sound_witness :
  get_indexers (plugin_dir ["__init__.py"; "svm.py"] [svm_module])
    = Ok {[ "TypeA" := VClass TypeA; "TypeB" := VClass TypeB ]}
  ∧ ({[ "TypeA" := VClass TypeA; "TypeB" := VClass TypeB ]}
       : gmap string PyVal) !! "TypeB" = Some (VClass TypeB)
  ∧ getattr_name (VClass TypeB) = Ok "TypeB"
  ∧ ∃ module_file items,
      module_file ∈ ["__init__.py"; "svm.py"]
      ∧ file_re_match module_file = true
      ∧ entry_classes (plugin_dir ["__init__.py"; "svm.py"] [svm_module])
          module_file = Ok items
      ∧ VClass TypeB ∈ items.
Proof.
  assert (get_indexers (plugin_dir ["__init__.py"; "svm.py"] [svm_module])
          = Ok {[ "TypeA" := VClass TypeA; "TypeB" := VClass TypeB ]})
    as Hrun by reflexivity.
  assert (({[ "TypeA" := VClass TypeA; "TypeB" := VClass TypeB ]}
             : gmap string PyVal) !! "TypeB" = Some (VClass TypeB))
    as Hlookup by (vm_compute; reflexivity).
  split; [exact Hrun|]. split; [exact Hlookup|].
  exact (get_indexers_registry_sound _ _ _ _ Hrun Hlookup).
Defined.

Lemma get_indexers_exceptions_witness :
  get_indexers (plugin_dir ["svm.py"; "README.txt"] [svm_module])
    = Raise (ImportError "SMQTK.Indexers.README")
  ∧ ((∃ module_file,
        module_file ∈ ["svm.py"; "README.txt"]
        ∧ file_re_match module_file = true
        ∧ import_module (plugin_dir ["svm.py"; "README.txt"] [svm_module])
            (module_path_of
               (plugin_dir ["svm.py"; "README.txt"] [svm_module]) module_file)
          = Raise (ImportError "SMQTK.Indexers.README"))
     ∨ (∃ module_file,
          module_file ∈ ["svm.py"; "README.txt"]
          ∧ file_re_match module_file = true
          ∧ PluginExportError (fst (splitext module_file))
              (ImportError "SMQTK.Indexers.README"))
     ∨ ImportError "SMQTK.Indexers.README" = TypeError
     ∨ ImportError "SMQTK.Indexers.README" = AttributeError "__name__").
Proof.
  split; [reflexivity|].
  apply (get_indexers_exceptions
           (plugin_dir ["svm.py"; "README.txt"] [svm_module])).
  reflexivity.
Defined.

Lemma get_indexers_first_failure_witness :
  get_indexers (with_listdir
                  (plugin_dir ["svm.py"; "README.txt"; "knn.py"]
                              [svm_module; knn_module]) ["svm.py"])
    = Ok {[ "TypeA" := VClass TypeA; "TypeB" := VClass TypeB ]}
  ∧ get_indexers (with_listdir
                    (plugin_dir ["svm.py"; "README.txt"; "knn.py"]
                                [svm_module; knn_module]) ["README.txt"])
    = Raise (ImportError "SMQTK.Indexers.README")
  ∧ get_indexers (plugin_dir ["svm.py"; "README.txt"; "knn.py"]
                             [svm_module; knn_module])
    = Raise (ImportError "SMQTK.Indexers.README").
Proof.
  split; [reflexivity|]. split; [reflexivity|].
  apply (get_indexers_first_failure
           (plugin_dir ["svm.py"; "README.txt"; "knn.py"]
                       [svm_module; knn_module])
           ["svm.py"] ["knn.py"] "README.txt"
           {[ "TypeA" := VClass TypeA; "TypeB" := VClass TypeB ]});
    reflexivity.
Defined.

Lemma get_indexers_imports_candidates_only_witness :
  import_module (plugin_dir ["__init__.py"; "svm.py"]
                            [init_module; svm_module])
    "SMQTK.Indexers.__init__"
  ≠ import_module (plugin_dir ["__init__.py"; "svm.py"] [svm_module])
      "SMQTK.Indexers.__init__"
  ∧ get_indexers (plugin_dir ["__init__.py"; "svm.py"]
                             [init_module; svm_module])
    = get_indexers (plugin_dir ["__init__.py"; "svm.py"] [svm_module]).
Proof.
  split; [discriminate|].
  apply get_indexers_imports_candidates_only; [reflexivity | reflexivity |].
  intros module_file Hin Hmatch. simpl in Hin.
  apply elem_of_cons in Hin as [-> | Hin]; [discriminate Hmatch|].
  apply elem_of_cons in Hin as [-> | Hin]; [reflexivity|].
  by apply elem_of_nil in Hin.
Defined.

Lemma get_indexers_order_irrelevant_witness :
  Forall2 (λ module_file classes,
             entry_classes
               (plugin_dir [] [svm_module; nn_module "SMQTK.Indexers.nn2"])
               module_file
             = Ok (VClass <$> classes))
          ["svm.py"; "nn2.py"]
          [[TypeA; TypeB]; [TwoNN "SMQTK.Indexers.nn2"]]
  ∧ NoDup (cls_name <$> concat [[TypeA; TypeB]; [TwoNN "SMQTK.Indexers.nn2"]])
  ∧ ["svm.py"; "nn2.py"] ≡ₚ ["nn2.py"; "svm.py"]
  ∧ get_indexers
      (with_listdir
         (plugin_dir [] [svm_module; nn_module "SMQTK.Indexers.nn2"])
         ["nn2.py"; "svm.py"])
    = get_indexers
        (with_listdir
           (plugin_dir [] [svm_module; nn_module "SMQTK.Indexers.nn2"])
           ["svm.py"; "nn2.py"]).
Proof.
  assert (Forall2 (λ module_file classes,
             entry_classes
               (plugin_dir [] [svm_module; nn_module "SMQTK.Indexers.nn2"])
               module_file
             = Ok (VClass <$> classes))
          ["svm.py"; "nn2.py"]
          [[TypeA; TypeB]; [TwoNN "SMQTK.Indexers.nn2"]]) as Hall
    by (repeat constructor).
  assert (NoDup (cls_name <$>
            concat [[TypeA; TypeB]; [TwoNN "SMQTK.Indexers.nn2"]])) as Hnodup.
  { apply (bool_decide_unpack _). vm_compute. exact I. }
  assert (["svm.py"; "nn2.py"] ≡ₚ ["nn2.py"; "svm.py"]) as Hperm
    by apply perm_swap.
  split_and!; [exact Hall | exact Hnodup | exact Hperm |].
  exact (get_indexers_order_irrelevant _ _ _ _ Hall Hnodup Hperm).
Defined.

Lemma get_indexers_repeated_module_witness :
  fst (splitext "svm.pyc") = fst (splitext "svm.py")
  ∧ file_re_match "svm.pyc" = true ∧ file_re_match "svm.py" = true
  ∧ get_indexers
      (with_listdir (plugin_dir [] [svm_module; knn_module])
         (["__init__.py"] ++ ["knn.py"] ++ "svm.py" :: []))
    = Ok {[ "TypeA" := VClass TypeA; "TypeB" := VClass TypeB ]}
  ∧ get_indexers
      (with_listdir (plugin_dir [] [svm_module; knn_module])
         (["__init__.py"] ++ "svm.pyc" :: ["knn.py"] ++ "svm.py" :: []))
    = Ok {[ "TypeA" := VClass TypeA; "TypeB" := VClass TypeB ]}.
Proof.
  split_and!; [reflexivity | reflexivity | reflexivity | reflexivity |].
  apply (get_indexers_repeated_module
           (plugin_dir [] [svm_module; knn_module])
           ["__init__.py"] ["knn.py"] [] "svm.pyc" "svm.py");
    reflexivity.
Defined.

Lemma generate_model_after_data_dir_witness :
  data_dir file_indexer fs_with_model = (Ok "/srv/data", fs_with_model)
  ∧ has_model file_indexer fs_with_model = true
  ∧ generate_model file_indexer one_feature None fs_with_model
    = (Raise (RuntimeError [model_exists_message "/srv/data"]),
       fs_with_model).
Proof.
  split; [reflexivity|]. split; [reflexivity|].
  apply (generate_model_after_data_dir file_indexer one_feature None
           fs_with_model); reflexivity.
Defined.

Lemma get_indexers_lookup_by_name_witness :
  Forall2 (λ module_file classes,
             entry_classes (plugin_dir ["__init__.py"; "svm.py"] [svm_module])
               module_file
             = Ok (VClass <$> classes))
          ["__init__.py"; "svm.py"] [[]; [TypeA; TypeB]]
  ∧ concat [[]; [TypeA; TypeB]] = ([] ++ TypeA :: [TypeB])%list
  ∧ Forall (λ c, cls_name c ≠ name file_indexer) [TypeB]
  ∧ ∃ registry,
      get_indexers (plugin_dir ["__init__.py"; "svm.py"] [svm_module])
        = Ok registry
      ∧ registry !! name file_indexer = Some (VClass TypeA).
Proof.
  assert (Forall2 (λ module_file classes,
             entry_classes (plugin_dir ["__init__.py"; "svm.py"] [svm_module])
               module_file
             = Ok (VClass <$> classes))
          ["__init__.py"; "svm.py"] [[]; [TypeA; TypeB]]) as Hall
    by (repeat constructor).
  assert (Forall (λ c, cls_name c ≠ name file_indexer) [TypeB]) as Hlater
    by (repeat constructor; discriminate).
  split_and!; [exact Hall | reflexivity | exact Hlater |].
  exact (get_indexers_lookup_by_name file_indexer
           (plugin_dir ["__init__.py"; "svm.py"] [svm_module])
           [[]; [TypeA; TypeB]] [] [TypeB] Hall eq_refl Hlater).
Defined.

Lemma main_skips_unmatched_arguments_witness :
  main_setup sample_config image_options = Done ("/data/images", "/work/images")
  ∧ DataIngest (listing_ops "*.png" ["a.png"; "b.png"])
      "/data/images" "/work/images" ["a.png"]
    = (Ok [], ["a.png"])
  ∧ Forall (λ g, isfile (listing_ops "*.png" ["a.png"; "b.png"]) ["a.png"] g
                   = false
                 ∧ glob (listing_ops "*.png" ["a.png"; "b.png"]) ["a.png"] g
                   = [])
           ["*.jpg"; "missing.gif"]
  ∧ main sample_config (listing_ops "*.png" ["a.png"; "b.png"]) image_options
         ["*.jpg"; "missing.gif"] ["a.png"]
    = (Done [], ["a.png"]).
Proof.
  assert (Forall (λ g,
            isfile (listing_ops "*.png" ["a.png"; "b.png"]) ["a.png"] g = false
            ∧ glob (listing_ops "*.png" ["a.png"; "b.png"]) ["a.png"] g = [])
          ["*.jpg"; "missing.gif"]) as Hnone
    by (repeat constructor).
  split_and!; [reflexivity | reflexivity | exact Hnone |].
  exact (main_skips_unmatched_arguments sample_config
           (listing_ops "*.png" ["a.png"; "b.png"]) image_options
           ["*.jpg"; "missing.gif"] ["a.png"] ["a.png"]
           "/data/images" "/work/images" [] eq_refl eq_refl Hnone).
Defined.

Example main_sample_run :
  main sample_config (listing_ops "*.png" ["a.png"; "b.png"; "c.png"])
       image_options ["*.png"; "*.jpg"; "x.gif"] ["a.png"; "c.png"; "x.gif"]
  = (Done ["a.png"; "c.png"; "x.gif"], ["a.png"; "c.png"; "x.gif"])
  ∧ main sample_config (listing_ops "*.png" ["a.png"; "b.png"])
         {| opt_type := None; opt_d := Some "/x"; opt_verbose := false |}
         ["a.png"] ["a.png"]
    = (Failed (invalid_type_error None), ["a.png"]).
Proof. split; reflexivity. Qed.
